(** * Verification of [google/cloud/bigtable/base_cluster.py]

    A shallow embedding of the [BaseCluster] container and of the resource
    name pattern [_CLUSTER_NAME_RE] it validates cluster names with.

    - Python [str] values are [string]s, [None]-able attributes are
      [option]s, integers are [Z].
    - Python objects live in a store ([heap]) and are passed by reference
      ([loc]); methods are computations in a state-and-exception monad.
    - The pattern is a value of a small regular-expression syntax that is
      run by a backtracking matcher following Python's [re] module:
      greedy quantifiers, [^] at the start of the subject, [$] at the end
      of the subject or just before a newline that ends it. *)

From Stdlib Require Import String Ascii ZArith Lia List Bool.
From stdpp Require Import gmap pretty.
Import ListNotations.

Local Open Scope string_scope.
Local Arguments String.append : simpl nomatch.

(** ** Regular expressions, as much of Python's [re] as the module uses *)

Module Re.

(** One item of a bracketed character set: a character or a range. *)
Inductive class_item : Type :=
| CChar (c : ascii)
| CRange (lo hi : ascii).

(** A bracketed set [[...]], complemented when written [[^...]]. *)
Record char_class : Type := CharClass {
  negated : bool;
  items : list class_item
}.

Definition in_item (c : ascii) (it : class_item) : bool :=
  match it with
  | CChar d => Ascii.eqb c d
  | CRange lo hi =>
      (N_of_ascii lo <=? N_of_ascii c)%N && (N_of_ascii c <=? N_of_ascii hi)%N
  end.

Definition in_class (cls : char_class) (c : ascii) : bool :=
  xorb (negated cls) (existsb (in_item c) (items cls)).

(** The syntax: anchors, literal text, a set matched once, [*] or [+]
    times, a named group [(?P<name>...)] and concatenation. *)
Inductive regex : Type :=
| RBol
| REol
| RLit (lit : string)
| ROne (cls : char_class)
| RStar (cls : char_class)
| RPlus (cls : char_class)
| RGroup (name : string) (r : regex)
| RSeq (r1 r2 : regex).

(** Captured groups, most recently closed first. *)
Definition groups : Type := list (string * string).

(** A successful match: the text matched and the named groups. *)
Record match_object : Type := MatchObject {
  matched : string;
  captures : groups
}.

(** [strip_prefix lit s] is the rest of [s] after [lit], when [s]
    starts with [lit]. *)
Fixpoint strip_prefix (lit s : string) : option string :=
  match lit with
  | EmptyString => Some s
  | String a lit' =>
      match s with
      | EmptyString => None
      | String b s' => if Ascii.eqb a b then strip_prefix lit' s' else None
      end
  end.

(** Greedy repetition of a set: the longest run is tried first and the
    matcher gives characters back one at a time while the rest of the
    pattern (the continuation [k]) fails. *)
Fixpoint class_star {R : Type} (cls : char_class) (s : string)
    (k : string -> string -> option R) : option R :=
  match s with
  | EmptyString => k EmptyString EmptyString
  | String c s' =>
      if in_class cls c then
        match class_star cls s' (fun t rest => k (String c t) rest) with
        | Some r => Some r
        | None => k EmptyString s
        end
      else k EmptyString s
  end.

(** [$] without [re.MULTILINE]: the end of the subject, or just before
    a newline that is the last character of the subject. *)
Definition at_eol (s : string) : bool :=
  match s with
  | EmptyString => true
  | String c EmptyString => Ascii.eqb c "010"%char
  | _ => false
  end.

(** The matcher, in continuation-passing style. [pos] is the number of
    characters of the subject consumed so far, [s] what remains, [g]
    the groups closed so far; the continuation receives the text the
    expression matched, the remaining subject and the groups. *)
Fixpoint run {R : Type} (r : regex) (pos : nat) (s : string) (g : groups)
    (k : string -> string -> groups -> option R) : option R :=
  match r with
  | RBol => if Nat.eqb pos 0 then k EmptyString s g else None
  | REol => if at_eol s then k EmptyString s g else None
  | RLit lit =>
      match strip_prefix lit s with
      | Some rest => k lit rest g
      | None => None
      end
  | ROne cls =>
      match s with
      | String c s' =>
          if in_class cls c then k (String c EmptyString) s' g else None
      | EmptyString => None
      end
  | RStar cls => class_star cls s (fun t rest => k t rest g)
  | RPlus cls =>
      match s with
      | String c s' =>
          if in_class cls c
          then class_star cls s' (fun t rest => k (String c t) rest g)
          else None
      | EmptyString => None
      end
  | RGroup name r' =>
      run r' pos s g (fun t rest g' => k t rest ((name, t) :: g'))
  | RSeq r1 r2 =>
      run r1 pos s g (fun t1 rest1 g1 =>
        run r2 (pos + String.length t1) rest1 g1 (fun t2 rest2 g2 =>
          k (t1 ++ t2) rest2 g2))
  end.

(** [pattern.match(s)]: the pattern is tried at the start of the
    subject only, and need not reach its end. *)
Definition re_match (r : regex) (s : string) : option match_object :=
  run r 0 s [] (fun t _ g => Some (MatchObject t g)).

(** [m.group(name)] for a named group. *)
Fixpoint lookup_group (name : string) (g : groups) : option string :=
  match g with
  | [] => None
  | (n, t) :: g' => if String.eqb n name then Some t else lookup_group name g'
  end.

Definition group (m : match_object) (name : string) : option string :=
  lookup_group name (captures m).

End Re.

Import Re.

Infix "~>" := RSeq (at level 59, right associativity).

(** [[^/]] *)
Definition not_slash : char_class := CharClass true [CChar "/"].
(** [[a-z]] *)
Definition lower : char_class := CharClass false [CRange "a" "z"].
(** [[-a-z0-9]] *)
Definition id_char : char_class :=
  CharClass false [CChar "-"; CRange "a" "z"; CRange "0" "9"].

(** [_CLUSTER_NAME_RE]. The source compiles three adjacent raw strings:
    [^projects/], the group [project] of one or more [[^/]] and [/];
    [instances/], the group [instance] of one or more [[^/]] and
    [/clusters/]; the group [cluster_id] of one [[a-z]] and any number of
    [[-a-z0-9]], and [$]. *)
Definition _CLUSTER_NAME_RE : regex :=
  RBol ~> RLit "projects/" ~> RGroup "project" (RPlus not_slash) ~> RLit "/"
    ~> RLit "instances/" ~> RGroup "instance" (RPlus not_slash)
    ~> RLit "/clusters/"
    ~> RGroup "cluster_id" (ROne lower ~> RStar id_char) ~> REol.

(** ** Python objects and the store *)

Definition loc : Type := nat.

(** The class of a cluster object: [BaseCluster] or a class derived from
    it by single inheritance. *)
Inductive pyclass : Type :=
| BaseCluster
| Subclass (name : string) (base : pyclass).

(** [instance._client], of which the module reads [project]. *)
Record Client : Type := mkClient {
  project : string
}.

(** [google.cloud.bigtable.instance.Instance], of which the module reads
    [instance_id] and [_client]. *)
Record Instance : Type := mkInstance {
  instance_id : string;
  _client : loc
}.

Module instance_pb2.
(** Modelled from the spec: the wire-format message type
    [instance_pb2.Cluster], generated code outside [base_cluster.py].
    It exposes [name] (string), [location] (string), [serve_nodes]
    (integer), [default_storage_type] (enum) and [state] (enum); enums
    are carried as their integer values. *)
Record Cluster : Type := mkCluster {
  name : string;
  location : string;
  serve_nodes : Z;
  default_storage_type : Z;
  state : Z
}.

(** Modelled from the spec: the range of a field of the message that
    holds an integer. [serve_nodes] is declared [int32] and an enum is
    carried as an [int32]: a signed integer of 32 bits. *)
Definition int32 (z : Z) : bool :=
  (-2147483648 <=? z)%Z && (z <=? 2147483647)%Z.

(** Modelled from the spec: the keyword constructor
    [instance_pb2.Cluster(location=..., serve_nodes=...,
    default_storage_type=...)]. A field that is not given, or given as
    [None], keeps the default of its type: the empty string or zero
    (zero is [UNSPECIFIED] for the storage type and [NOT_KNOWN] for
    the state). The arguments are taken in the order they are written,
    and a value outside the range of its field is refused: the result
    is then that value, for which the constructor raises [ValueError],
    and no message. *)
Definition Cluster_init (location : string) (serve_nodes : option Z)
    (default_storage_type : option Z) : Z + Cluster :=
  if negb (int32 (default 0%Z serve_nodes))
  then inl (default 0%Z serve_nodes)
  else if negb (int32 (default 0%Z default_storage_type))
  then inl (default 0%Z default_storage_type)
  else inr {| name := EmptyString;
              location := location;
              serve_nodes := default 0%Z serve_nodes;
              default_storage_type := default 0%Z default_storage_type;
              state := 0%Z |}.
End instance_pb2.

(** The attributes [BaseCluster.__init__] sets, and the object's class. *)
Record Cluster : Type := mkCluster {
  ob_type : pyclass;
  cluster_id : string;
  _instance : loc;
  location_id : option string;
  serve_nodes : option Z;
  default_storage_type : option Z;
  _state : option Z
}.

Inductive pyobj : Type :=
| OClient (c : Client)
| OInstance (i : Instance)
| OCluster (c : Cluster)
| OPb (pb : instance_pb2.Cluster).

Abbreviation heap := (gmap loc pyobj).

(** The exceptions the module raises or lets through, with the
    arguments of a [ValueError]. *)
Inductive exn : Type :=
| ValueError (args : list string)
| NotImplementedError
| AttributeError
| IndexError.

Inductive result (A : Type) : Type :=
| Ok (a : A)
| Raise (e : exn).
Arguments Ok {A} a.
Arguments Raise {A} e.

(** A computation reads and writes the store and returns or raises. *)
Definition M (A : Type) : Type := heap -> result A * heap.

Definition ret {A : Type} (a : A) : M A := fun h => (Ok a, h).

Definition raise {A : Type} (e : exn) : M A := fun h => (Raise e, h).

Definition bind {A B : Type} (m : M A) (k : A -> M B) : M B :=
  fun h =>
    match m h with
    | (Ok a, h') => k a h'
    | (Raise e, h') => (Raise e, h')
    end.

Declare Scope py_scope.
Delimit Scope py_scope with py.
Bind Scope py_scope with M.
Notation "x <- m ;; k" := (bind m (fun x => k))
  (at level 100, m at next level, right associativity) : py_scope.
Notation "m ;; k" := (bind m (fun _ => k))
  (at level 100, right associativity) : py_scope.
Local Open Scope py_scope.

(** Attribute reads through a reference. An object of another kind has
    not got the attribute; a location outside the store cannot come from
    Python code and is reported the same way. *)
Definition read_client (l : loc) : M Client :=
  fun h => match h !! l with
           | Some (OClient c) => (Ok c, h)
           | _ => (Raise AttributeError, h)
           end.

Definition read_instance (l : loc) : M Instance :=
  fun h => match h !! l with
           | Some (OInstance i) => (Ok i, h)
           | _ => (Raise AttributeError, h)
           end.

Definition read_cluster (l : loc) : M Cluster :=
  fun h => match h !! l with
           | Some (OCluster c) => (Ok c, h)
           | _ => (Raise AttributeError, h)
           end.

Definition read_pb (l : loc) : M instance_pb2.Cluster :=
  fun h => match h !! l with
           | Some (OPb pb) => (Ok pb, h)
           | _ => (Raise AttributeError, h)
           end.

(** A new object at a location not yet in the store. *)
Definition alloc (o : pyobj) : M loc :=
  fun h => let l := fresh (dom h) in (Ok l, <[l := o]> h).

(** Attribute assignments [self.attr = v] on a cluster object. *)
Definition modify_cluster (l : loc) (f : Cluster -> Cluster) : M unit :=
  c <- read_cluster l ;; fun h => (Ok tt, <[l := OCluster (f c)]> h).

Definition set_location_id (v : option string) (c : Cluster) : Cluster :=
  {| ob_type := ob_type c; cluster_id := cluster_id c;
     _instance := _instance c; location_id := v;
     serve_nodes := serve_nodes c;
     default_storage_type := default_storage_type c; _state := _state c |}.

Definition set_serve_nodes (v : option Z) (c : Cluster) : Cluster :=
  {| ob_type := ob_type c; cluster_id := cluster_id c;
     _instance := _instance c; location_id := location_id c;
     serve_nodes := v;
     default_storage_type := default_storage_type c; _state := _state c |}.

Definition set_default_storage_type (v : option Z) (c : Cluster) : Cluster :=
  {| ob_type := ob_type c; cluster_id := cluster_id c;
     _instance := _instance c; location_id := location_id c;
     serve_nodes := serve_nodes c;
     default_storage_type := v; _state := _state c |}.

Definition set__state (v : option Z) (c : Cluster) : Cluster :=
  {| ob_type := ob_type c; cluster_id := cluster_id c;
     _instance := _instance c; location_id := location_id c;
     serve_nodes := serve_nodes c;
     default_storage_type := default_storage_type c; _state := v |}.

(** [client.project = p], the assignment a caller can make between two
    reads of [name]. *)
Definition set_project (l : loc) (p : string) : M unit :=
  read_client l ;; fun h => (Ok tt, <[l := OClient (mkClient p)]> h).

(** ** Helpers from Python and from the admin client *)

(** [s.split(sep)] for a one-character separator: the pieces between the
    separators, never an empty list. *)
Fixpoint split (sep : ascii) (s : string) : list string :=
  match s with
  | EmptyString => [EmptyString]
  | String c s' =>
      if Ascii.eqb c sep then EmptyString :: split sep s'
      else match split sep s' with
           | w :: ws => String c w :: ws
           | [] => [String c EmptyString]
           end
  end.

(** [l[-1]]: the last element, [IndexError] on an empty list. *)
Definition getitem_last {A : Type} (l : list A) : M A :=
  match rev l with
  | x :: _ => ret x
  | [] => raise IndexError
  end.

(** [str(v)] for an attribute that holds a string or [None]. *)
Definition py_str (v : option string) : string :=
  match v with
  | Some s => s
  | None => "None"
  end.

(** Modelled from the spec: [instance_admin_client.cluster_path] of the
    admin client, defined outside [base_cluster.py]. The canonical name is
    [projects/{project}/instances/{instanceId}/clusters/{clusterId}]. *)
Definition cluster_path (project instance cluster : string) : string :=
  "projects/" ++ project ++ "/instances/" ++ instance ++ "/clusters/" ++ cluster.

(** Modelled from the spec: [instance_admin_client.location_path] of the
    admin client, defined outside [base_cluster.py]: the fully-qualified
    location path, a slash-delimited path whose last segment is the
    location id, after the [projects/{project}] of the canonical names.
    The location attribute is formatted with [str]. *)
Definition location_path (project : string) (location : option string) : string :=
  "projects/" ++ project ++ "/locations/" ++ py_str location.

(** Modelled from the spec: [Instance.__eq__], defined outside
    [base_cluster.py]. Two instance references are equal when they are the same
    object, or equal by the identifying values the comment in
    [BaseCluster.__eq__] names: the instance id and the client. *)
Definition Instance__eq__ (a b : loc) : M bool :=
  fun h =>
    (Ok (Nat.eqb a b ||
         match h !! a, h !! b with
         | Some (OInstance x), Some (OInstance y) =>
             String.eqb (instance_id x) (instance_id y)
             && Nat.eqb (_client x) (_client y)
         | _, _ => false
         end), h).

Fixpoint pyclass_eqb (c d : pyclass) : bool :=
  match c, d with
  | BaseCluster, BaseCluster => true
  | Subclass n b, Subclass n' b' => String.eqb n n' && pyclass_eqb b b'
  | _, _ => false
  end.

Fixpoint issubclass (c d : pyclass) : bool :=
  pyclass_eqb c d ||
  match c with
  | BaseCluster => false
  | Subclass _ base => issubclass base d
  end.

(** [isinstance(o, cls)] for a class [cls] of clusters. *)
Definition isinstance (o : loc) (cls : pyclass) : M bool :=
  fun h => match h !! o with
           | Some (OCluster c) => (Ok (issubclass (ob_type c) cls), h)
           | _ => (Ok false, h)
           end.

(** What [__eq__] returns: the [NotImplemented] singleton or a [bool]. *)
Inductive pyeq : Type :=
| NotImplemented
| PyBool (b : bool).

(** ** [class BaseCluster] *)

(** [cls(cluster_id, instance, location_id=None, serve_nodes=None,
    default_storage_type=None, _state=None)]: a new object whose
    attributes are the arguments as given. *)
Definition __init__ (cls : pyclass) (cluster_id : string) (instance : loc)
    (location_id : option string) (serve_nodes : option Z)
    (default_storage_type : option Z) (_state : option Z) : M loc :=
  alloc (OCluster (mkCluster cls cluster_id instance location_id serve_nodes
                     default_storage_type _state)).

Definition group_ (m : match_object) (name : string) : M string :=
  match group m name with
  | Some t => ret t
  | None => raise IndexError
  end.

Definition _update_from_pb (self cluster_pb : loc) : M unit :=
  (pb <- read_pb cluster_pb ;;
   seg <- getitem_last (split "/" (instance_pb2.location pb)) ;;
   modify_cluster self (set_location_id (Some seg))) ;;
  (pb <- read_pb cluster_pb ;;
   modify_cluster self (set_serve_nodes (Some (instance_pb2.serve_nodes pb)))) ;;
  (pb <- read_pb cluster_pb ;;
   modify_cluster self
     (set_default_storage_type (Some (instance_pb2.default_storage_type pb)))) ;;
  (pb <- read_pb cluster_pb ;;
   modify_cluster self (set__state (Some (instance_pb2.state pb)))).

Definition msg_format : string :=
  "Cluster protobuf name was not in the expected format.".
Definition msg_instance : string :=
  "Instance ID on cluster does not match the instance ID on the client".
Definition msg_project : string :=
  "Project ID on cluster does not match the project ID on the client".

Definition from_pb (cls : pyclass) (cluster_pb instance : loc) : M loc :=
  pb <- read_pb cluster_pb ;;
  match re_match _CLUSTER_NAME_RE (instance_pb2.name pb) with
  | None => raise (ValueError [msg_format; instance_pb2.name pb])
  | Some match_cluster_name =>
      g_instance <- group_ match_cluster_name "instance" ;;
      inst <- read_instance instance ;;
      if negb (String.eqb g_instance (instance_id inst))
      then raise (ValueError [msg_instance])
      else
        g_project <- group_ match_cluster_name "project" ;;
        client <- read_client (_client inst) ;;
        if negb (String.eqb g_project (project client))
        then raise (ValueError [msg_project])
        else
          cluster_id <- group_ match_cluster_name "cluster_id" ;;
          result <- __init__ cls cluster_id instance None None None None ;;
          _update_from_pb result cluster_pb ;;
          ret result
  end.

(** The [name] property. *)
Definition name (self : loc) : M string :=
  c <- read_cluster self ;;
  inst <- read_instance (_instance c) ;;
  client <- read_client (_client inst) ;;
  ret (cluster_path (project client) (instance_id inst) (cluster_id c)).

(** The [state] property. *)
Definition state (self : loc) : M (option Z) :=
  c <- read_cluster self ;;
  ret (_state c).

Definition __eq__ (self other : loc) : M pyeq :=
  c <- read_cluster self ;;
  is_inst <- isinstance other (ob_type c) ;;
  if negb is_inst then ret NotImplemented
  else
    o <- read_cluster other ;;
    if String.eqb (cluster_id o) (cluster_id c)
    then b <- Instance__eq__ (_instance o) (_instance c) ;; ret (PyBool b)
    else ret (PyBool false).

Definition reload (self : loc) : M unit := raise NotImplementedError.
Definition exists_ (self : loc) : M unit := raise NotImplementedError.
Definition create (self : loc) : M unit := raise NotImplementedError.
Definition update (self : loc) : M unit := raise NotImplementedError.
Definition delete (self : loc) : M unit := raise NotImplementedError.

(** The argument of the [ValueError] that the message constructor raises
    for an integer outside the range of its field, with the text of the
    library's type checker. *)
Definition msg_out_of_range (v : Z) : string :=
  "Value out of range: " ++ pretty v.

Definition _to_pb (self : loc) : M loc :=
  c <- read_cluster self ;;
  inst <- read_instance (_instance c) ;;
  client <- read_client (_client inst) ;;
  let location := location_path (project client) (location_id c) in
  match instance_pb2.Cluster_init location (serve_nodes c)
          (default_storage_type c) with
  | inr cluster_pb => alloc (OPb cluster_pb)
  | inl v => raise (ValueError [msg_out_of_range v])
  end.

(** The name check of [from_pb] on its own: the three groups of a name
    that matches, [None] where [from_pb] raises the format error. *)
Definition parseResourceName (name : string) : option (string * string * string) :=
  match re_match _CLUSTER_NAME_RE name with
  | None => None
  | Some m =>
      match group m "project", group m "instance", group m "cluster_id" with
      | Some p, Some i, Some c => Some (p, i, c)
      | _, _, _ => None
      end
  end.

(** ** The [==] operator and [__ne__] *)

(** The class of the object at [l], when it is a cluster object. *)
Definition cluster_class (l : loc) : M (option pyclass) :=
  fun h => match h !! l with
           | Some (OCluster c) => (Ok (Some (ob_type c)), h)
           | _ => (Ok None, h)
           end.

Section Comparison.

(** [type(w).__eq__(w, v)] for an object [w] that is no cluster: the
    comparison method of a class of another module. *)
Variable foreign__eq__ : loc -> loc -> M pyeq.

(** [type(w).__eq__(w, v)]: every class of clusters inherits
    [BaseCluster.__eq__]. *)
Definition reflected__eq__ (v w : loc) : M pyeq :=
  tw <- cluster_class w ;;
  match tw with
  | Some _ => __eq__ w v
  | None => foreign__eq__ w v
  end.

(** [v == w] for a cluster object [v], as the interpreter evaluates it:
    when the class of [w] is another class and a subclass of the class
    of [v], the method of [w] is asked first; otherwise the method of
    [v], then that of [w]; an answer other than [NotImplemented] is the
    result, and when there is none the result is [v is w]. *)
Definition richcompare_eq (v w : loc) : M bool :=
  cv <- read_cluster v ;;
  tw <- cluster_class w ;;
  let reverse_first :=
    match tw with
    | Some t => negb (pyclass_eqb t (ob_type cv)) && issubclass t (ob_type cv)
    | None => false
    end in
  if reverse_first then
    r <- reflected__eq__ v w ;;
    match r with
    | PyBool b => ret b
    | NotImplemented =>
        r' <- __eq__ v w ;;
        match r' with
        | PyBool b => ret b
        | NotImplemented => ret (Nat.eqb v w)
        end
    end
  else
    r <- __eq__ v w ;;
    match r with
    | PyBool b => ret b
    | NotImplemented =>
        r' <- reflected__eq__ v w ;;
        match r' with
        | PyBool b => ret b
        | NotImplemented => ret (Nat.eqb v w)
        end
    end.

(** [return not self == other] *)
Definition __ne__ (self other : loc) : M bool :=
  b <- richcompare_eq self other ;;
  ret (negb b).

End Comparison.

(** ** Predicates the statements use *)

Fixpoint str_forall (f : ascii -> bool) (s : string) : bool :=
  match s with
  | EmptyString => true
  | String c s' => f c && str_forall f s'
  end.

(** A non-empty run of characters other than the slash. *)
Definition segment (s : string) : bool :=
  match s with
  | EmptyString => false
  | String _ _ => str_forall (in_class not_slash) s
  end.

(** A lowercase letter, then lowercase letters, digits or hyphens. *)
Definition is_cluster_id (s : string) : bool :=
  match s with
  | EmptyString => false
  | String c s' => in_class lower c && str_forall (in_class id_char) s'
  end.

Definition newline : string := String "010" EmptyString.

(** Whether the greedy run of [cls] must stop in front of [s]. *)
Definition stops (cls : char_class) (s : string) : bool :=
  match s with
  | EmptyString => true
  | String c _ => negb (in_class cls c)
  end.

Fixpoint count_slash (s : string) : nat :=
  match s with
  | EmptyString => 0
  | String c s' => (if Ascii.eqb c "/" then 1 else 0) + count_slash s'
  end.

(** The last slash-delimited segment of a path. *)
Definition last_segment (s : string) : string :=
  List.last (split "/" s) EmptyString.

(** A small store for examples: a client for project [p1] at 1, the
    instance [i1] of that client at 2 and, at 3, a server payload with
    the given name. *)
Definition example_pb (name : string) : instance_pb2.Cluster :=
  instance_pb2.mkCluster name "projects/p1/locations/us-east1-b" 3 1 1.

Definition example_name : string := "projects/p1/instances/i1/clusters/c1".

Definition example_heap (name : string) : heap :=
  <[3 := OPb (example_pb name)]>
    (<[2 := OInstance (mkInstance "i1" 1)]>
       (<[1 := OClient (mkClient "p1")]> ∅)).

(** The example store with a cluster object [c] at 4. *)
Definition example_cluster_heap (c : Cluster) : heap :=
  <[4 := OCluster c]> (example_heap example_name).

(** A cluster whose location id holds a slash, and a cluster as the
    constructor builds it when only the id and the instance are given. *)
Definition cluster_with_slash : Cluster :=
  mkCluster BaseCluster "c1" 2 (Some "us/east1-b") (Some 3%Z) (Some 1%Z) None.

Definition cluster_with_defaults : Cluster :=
  mkCluster BaseCluster "c1" 2 None None None None.

(** A cluster whose node count is one more than the largest [int32]. *)
Definition cluster_out_of_range : Cluster :=
  mkCluster BaseCluster "c1" 2 (Some "us-east1-b") (Some 2147483648%Z)
    (Some 1%Z) None.

(** An attribute that [_to_pb] sends as an integer is unset or within
    the range of the field. *)
Definition sendable (v : option Z) : bool :=
  instance_pb2.int32 (default 0%Z v).

(** [_to_pb] and, on its result, the attribute copy of
    [_update_from_pb], on the same object. *)
Definition roundtrip (self : loc) : M unit :=
  cluster_pb <- _to_pb self ;;
  _update_from_pb self cluster_pb.

(** The attribute [f] of the cluster object at [l], when there is one. *)
Definition attr {A : Type} (f : Cluster -> A) (l : loc) (h : heap) : option A :=
  match h !! l with
  | Some (OCluster c) => Some (f c)
  | _ => None
  end.

(** The payload object at [l], when there is one. *)
Definition payload_at (l : loc) (h : heap) : option instance_pb2.Cluster :=
  match h !! l with
  | Some (OPb pb) => Some pb
  | _ => None
  end.

(** The number of classes between a class and [BaseCluster]. *)
Fixpoint class_depth (c : pyclass) : nat :=
  match c with
  | BaseCluster => 0
  | Subclass _ base => S (class_depth base)
  end.

(** The answer of [Instance__eq__] in a store. *)
Definition instance_eqb (h : heap) (a b : loc) : bool :=
  match fst (Instance__eq__ a b h) with
  | Ok r => r
  | Raise _ => false
  end.

(** Whether two cluster objects have the same id and equal instances,
    compared in the order in which [__eq__] on the second compares. *)
Definition same_identity (h : heap) (o c : Cluster) : bool :=
  String.eqb (cluster_id o) (cluster_id c)
  && instance_eqb h (_instance o) (_instance c).

(** [m], run on [h], leaves every location outside [W] as it was. *)
Definition frame_at {A : Type} (W : loc -> Prop) (m : M A) (h : heap) : Prop :=
  forall l, ~ W l -> snd (m h) !! l = h !! l.

(** ** Strings *)

Lemma append_nil_r (s : string) : s ++ "" = s.
Proof. induction s as [|a s IH]; simpl; [reflexivity | now rewrite IH]. Qed.

Lemma append_assoc (s t u : string) : (s ++ t) ++ u = s ++ t ++ u.
Proof. induction s as [|a s IH]; simpl; [reflexivity | now rewrite IH]. Qed.

Lemma str_forall_app (f : ascii -> bool) (s t : string) :
  str_forall f (s ++ t) = str_forall f s && str_forall f t.
Proof.
  induction s as [|a s IH]; simpl; [reflexivity |].
  now rewrite IH, andb_assoc.
Qed.

Lemma count_slash_app (s t : string) :
  count_slash (s ++ t) = count_slash s + count_slash t.
Proof. induction s as [|a s IH]; simpl; [reflexivity | rewrite IH; lia]. Qed.

Lemma not_slash_spec (c : ascii) :
  in_class not_slash c = negb (Ascii.eqb c "/").
Proof. unfold in_class; simpl. now rewrite orb_false_r. Qed.

Lemma count_slash_free (s : string) :
  str_forall (in_class not_slash) s = true -> count_slash s = 0.
Proof.
  induction s as [|a s IH]; simpl; [reflexivity |].
  rewrite not_slash_spec. intros [Ha Hs]%andb_true_iff.
  apply negb_true_iff in Ha. rewrite Ha. now rewrite IH.
Qed.

Lemma count_slash_zero (s : string) :
  count_slash s = 0 -> str_forall (in_class not_slash) s = true.
Proof.
  induction s as [|a s IH]; simpl; [reflexivity |].
  rewrite not_slash_spec. destruct (Ascii.eqb a "/"); simpl; [lia | auto].
Qed.

Lemma segment_slash_free (s : string) :
  segment s = true -> str_forall (in_class not_slash) s = true.
Proof. destruct s; [discriminate | auto]. Qed.

Lemma id_char_not_slash (c : ascii) :
  in_class id_char c = true -> in_class not_slash c = true.
Proof.
  rewrite not_slash_spec. destruct (Ascii.eqb_spec c "/") as [->|]; [|reflexivity].
  vm_compute. discriminate.
Qed.

Lemma lower_id_char (c : ascii) :
  in_class lower c = true -> in_class id_char c = true.
Proof.
  unfold in_class; simpl. rewrite !orb_false_r.
  intros ->. now rewrite orb_true_r.
Qed.

Lemma id_chars_slash_free (s : string) :
  str_forall (in_class id_char) s = true ->
  str_forall (in_class not_slash) s = true.
Proof.
  induction s as [|a s IH]; simpl; [reflexivity |].
  intros [Ha Hs]%andb_true_iff. rewrite (id_char_not_slash _ Ha). auto.
Qed.

Lemma cluster_id_slash_free (s : string) :
  is_cluster_id s = true -> str_forall (in_class not_slash) s = true.
Proof.
  destruct s as [|a s]; [discriminate |]. simpl.
  intros [Ha Hs]%andb_true_iff.
  rewrite (id_char_not_slash _ (lower_id_char _ Ha)).
  now apply id_chars_slash_free.
Qed.

(** Two slash-free prefixes in front of a slash are the same prefix. *)
Lemma first_slash_unique (a b x y : string) :
  str_forall (in_class not_slash) a = true ->
  str_forall (in_class not_slash) b = true ->
  a ++ String "/" x = b ++ String "/" y -> a = b /\ x = y.
Proof.
  revert b. induction a as [|c a IH]; intros [|d b]; simpl;
    rewrite ?not_slash_spec; intros Ha Hb E.
  - now inversion E.
  - inversion E; subst d. discriminate.
  - inversion E; subst c. discriminate.
  - apply andb_true_iff in Ha as [_ Ha]. apply andb_true_iff in Hb as [_ Hb].
    inversion E; subst d. destruct (IH b Ha Hb) as [-> ->]; auto.
Qed.

Lemma strip_prefix_Some (lit s rest : string) :
  strip_prefix lit s = Some rest <-> s = lit ++ rest.
Proof.
  revert s. induction lit as [|a lit IH]; intros s; simpl.
  - split; [intros [= ->] | intros ->]; reflexivity.
  - destruct s as [|b s]; [split; discriminate |].
    destruct (Ascii.eqb_spec a b) as [->|Hne].
    + rewrite IH. split; [intros ->; reflexivity | now intros [= ->]].
    + split; [discriminate | intros [= -> _]; contradiction].
Qed.

Lemma strip_prefix_app (lit rest : string) :
  strip_prefix lit (lit ++ rest) = Some rest.
Proof. now apply strip_prefix_Some. Qed.

(** ** The matcher *)

(** Whatever split the greedy repetition settles on, the text it took is
    a run of the set and the continuation accepted the split. *)
Lemma class_star_sound {R : Type} (cls : char_class) (s : string)
    (k : string -> string -> option R) (x : R) :
  class_star cls s k = Some x ->
  exists t rest,
    s = t ++ rest /\ str_forall (in_class cls) t = true /\ k t rest = Some x.
Proof.
  revert k. induction s as [|c s IH]; intros k; simpl.
  - intros H. now exists "", "".
  - destruct (in_class cls c) eqn:Hc.
    + destruct (class_star cls s _) as [r|] eqn:Hs.
      * intros [= ->]. apply IH in Hs as (t & rest & -> & Ht & Hk).
        exists (String c t), rest. simpl. now rewrite Hc, Ht.
      * intros H. now exists "", (String c s).
    + intros H. now exists "", (String c s).
Qed.

(** The longest run is the first split tried: when the continuation
    accepts it, that is the result. *)
Lemma class_star_longest {R : Type} (cls : char_class) (t rest : string)
    (k : string -> string -> option R) (x : R) :
  str_forall (in_class cls) t = true -> stops cls rest = true ->
  k t rest = Some x -> class_star cls (t ++ rest) k = Some x.
Proof.
  revert k. induction t as [|c t IH]; intros k; simpl.
  - intros _ Hstop Hk. destruct rest as [|c rest]; simpl; [assumption |].
    simpl in Hstop. apply negb_true_iff in Hstop. now rewrite Hstop.
  - intros [Hc Ht]%andb_true_iff Hstop Hk. rewrite Hc.
    now rewrite (IH (fun t' r => k (String c t') r) Ht Hstop Hk).
Qed.

Lemma run_RLit_Some {R : Type} (lit : string) (pos : nat) (s : string)
    (g : groups) (k : string -> string -> groups -> option R) (x : R) :
  run (RLit lit) pos s g k = Some x ->
  exists rest, s = lit ++ rest /\ k lit rest g = Some x.
Proof.
  simpl. destruct (strip_prefix lit s) as [rest|] eqn:E; [|discriminate].
  apply strip_prefix_Some in E. eauto.
Qed.

Lemma run_RLit_app {R : Type} (lit : string) (pos : nat) (rest : string)
    (g : groups) (k : string -> string -> groups -> option R) :
  run (RLit lit) pos (lit ++ rest) g k = k lit rest g.
Proof. simpl. now rewrite strip_prefix_app. Qed.

Lemma run_RPlus_Some {R : Type} (cls : char_class) (pos : nat) (s : string)
    (g : groups) (k : string -> string -> groups -> option R) (x : R) :
  run (RPlus cls) pos s g k = Some x ->
  exists c t rest,
    s = String c t ++ rest /\ str_forall (in_class cls) (String c t) = true
    /\ k (String c t) rest g = Some x.
Proof.
  simpl. destruct s as [|c s]; [discriminate |].
  destruct (in_class cls c) eqn:Hc; [|discriminate].
  intros (t & rest & -> & Ht & Hk)%class_star_sound.
  exists c, t, rest. simpl. now rewrite Hc, Ht.
Qed.

Lemma run_RPlus_longest {R : Type} (cls : char_class) (pos : nat)
    (t rest : string) (g : groups)
    (k : string -> string -> groups -> option R) (x : R) :
  t <> "" -> str_forall (in_class cls) t = true -> stops cls rest = true ->
  k t rest g = Some x -> run (RPlus cls) pos (t ++ rest) g k = Some x.
Proof.
  destruct t as [|c t]; [contradiction |]. intros _. simpl.
  intros [Hc Ht]%andb_true_iff Hstop Hk. rewrite Hc.
  now apply class_star_longest.
Qed.

Lemma at_eol_spec (s : string) :
  at_eol s = true <-> s = "" \/ s = newline.
Proof.
  destruct s as [|c [|d s]]; simpl.
  - split; auto.
  - destruct (Ascii.eqb_spec c "010") as [->|Hne].
    + split; auto.
    + split; [discriminate |]. intros [|[= ->]]; [discriminate | contradiction].
  - split; [discriminate | intros [|]; discriminate].
Qed.

Lemma run_RSeq {R : Type} (r1 r2 : regex) (pos : nat) (s : string)
    (g : groups) (k : string -> string -> groups -> option R) :
  run (r1 ~> r2) pos s g k =
  run r1 pos s g (fun t1 rest1 g1 =>
    run r2 (pos + String.length t1) rest1 g1 (fun t2 rest2 g2 =>
      k (t1 ++ t2) rest2 g2)).
Proof. reflexivity. Qed.

Lemma run_RGroup {R : Type} (name : string) (r : regex) (pos : nat)
    (s : string) (g : groups) (k : string -> string -> groups -> option R) :
  run (RGroup name r) pos s g k =
  run r pos s g (fun t rest g' => k t rest ((name, t) :: g')).
Proof. reflexivity. Qed.

Lemma re_match_sound (s : string) (m : match_object) :
  re_match _CLUSTER_NAME_RE s = Some m ->
  exists p i c nl,
    s = cluster_path p i c ++ nl /\ segment p = true /\ segment i = true
    /\ is_cluster_id c = true /\ (nl = "" \/ nl = newline)
    /\ captures m = [("cluster_id", c); ("instance", i); ("project", p)].
Proof.
  unfold re_match, _CLUSTER_NAME_RE. rewrite run_RSeq.
  change (run RBol 0 s [] ?k) with (k "" s []). cbv beta.
  rewrite run_RSeq.
  intros (s1 & -> & H)%run_RLit_Some. cbv beta in H.
  rewrite run_RSeq, run_RGroup in H.
  apply run_RPlus_Some in H as (a & p & s2 & -> & Hp & H). cbv beta in H.
  rewrite run_RSeq in H.
  apply run_RLit_Some in H as (s3 & -> & H). cbv beta in H.
  rewrite run_RSeq in H.
  apply run_RLit_Some in H as (s4 & -> & H). cbv beta in H.
  rewrite run_RSeq, run_RGroup in H.
  apply run_RPlus_Some in H as (b & i & s5 & -> & Hi & H). cbv beta in H.
  rewrite run_RSeq in H.
  apply run_RLit_Some in H as (s6 & -> & H). cbv beta in H.
  rewrite run_RSeq, run_RGroup, run_RSeq in H.
  destruct s6 as [|c0 s6]; [discriminate |]. cbn [run] in H.
  destruct (in_class lower c0) eqn:Hc0; [|discriminate].
  apply class_star_sound in H as (c & nl & -> & Hc & H).
  destruct (at_eol nl) eqn:Hnl; [|discriminate].
  injection H as <-. apply at_eol_spec in Hnl.
  exists (String a p), (String b i), (String c0 c), nl.
  repeat split; try assumption.
  - unfold cluster_path. now rewrite !append_assoc.
  - simpl. now rewrite Hc0, Hc.
Qed.

Lemma re_match_complete (p i c nl : string) :
  segment p = true -> segment i = true -> is_cluster_id c = true ->
  nl = "" \/ nl = newline ->
  re_match _CLUSTER_NAME_RE (cluster_path p i c ++ nl) =
  Some (MatchObject (cluster_path p i c)
          [("cluster_id", c); ("instance", i); ("project", p)]).
Proof.
  intros Hp Hi Hc Hnl.
  unfold re_match, _CLUSTER_NAME_RE, cluster_path.
  rewrite !append_assoc. rewrite run_RSeq.
  change (run RBol 0 ?s [] ?k) with (k "" s []). cbv beta.
  rewrite run_RSeq, run_RLit_app.
  rewrite run_RSeq, run_RGroup.
  apply run_RPlus_longest;
    [now destruct p | now apply segment_slash_free | reflexivity |].
  rewrite run_RSeq.
  change ("/instances/" ++ ?x) with ("/" ++ "instances/" ++ x).
  rewrite run_RLit_app, run_RSeq, run_RLit_app, run_RSeq, run_RGroup.
  apply run_RPlus_longest;
    [now destruct i | now apply segment_slash_free | reflexivity |].
  rewrite run_RSeq, run_RLit_app, run_RSeq, run_RGroup, run_RSeq.
  destruct c as [|c0 c]; [discriminate |].
  apply andb_true_iff in Hc as [Hc0 Hc].
  cbn [run append]. rewrite Hc0.
  apply class_star_longest; [assumption | now destruct Hnl as [->| ->] |].
  replace (at_eol nl) with true by now destruct Hnl as [->| ->].
  now rewrite append_nil_r.
Qed.

(** The name check accepts exactly the canonical names, with a non-empty
    slash-free project and instance and a well-formed cluster id, and the
    same names followed by one newline. *)
Lemma parseResourceName_Some (s p i c : string) :
  parseResourceName s = Some (p, i, c) <->
  segment p = true /\ segment i = true /\ is_cluster_id c = true
  /\ (s = cluster_path p i c \/ s = cluster_path p i c ++ newline).
Proof.
  unfold parseResourceName. split.
  - destruct (re_match _ s) as [m|] eqn:E; [|discriminate].
    apply re_match_sound in E as (p' & i' & c' & nl & Hs & Hp & Hi & Hc & Hnl & Hm).
    unfold group. rewrite Hm. simpl. intros [= <- <- <-]. subst s.
    repeat split; try assumption.
    destruct Hnl as [->| ->]; [left; apply append_nil_r | now right].
  - intros (Hp & Hi & Hc & Hs).
    assert (exists nl, (nl = "" \/ nl = newline) /\ s = cluster_path p i c ++ nl)
      as (nl & Hnl & ->).
    { destruct Hs as [->| ->]; [exists ""| exists newline];
        rewrite ?append_nil_r; auto. }
    now rewrite (re_match_complete p i c nl Hp Hi Hc Hnl).
Qed.

Lemma parseResourceName_None (s : string) :
  parseResourceName s = None <-> re_match _CLUSTER_NAME_RE s = None.
Proof.
  unfold parseResourceName. split.
  - destruct (re_match _ s) as [m|] eqn:E; [|reflexivity].
    apply re_match_sound in E as (p & i & c & nl & _ & _ & _ & _ & _ & Hm).
    unfold group. rewrite Hm. discriminate.
  - now intros ->.
Qed.

(** A match always carries the three named groups. *)
Lemma re_match_groups (s : string) (m : match_object) :
  re_match _CLUSTER_NAME_RE s = Some m ->
  exists p i c,
    parseResourceName s = Some (p, i, c) /\ group m "project" = Some p
    /\ group m "instance" = Some i /\ group m "cluster_id" = Some c.
Proof.
  intros E. unfold parseResourceName. rewrite E.
  apply re_match_sound in E as (p & i & c & nl & _ & _ & _ & _ & _ & Hm).
  unfold group. rewrite Hm. exists p, i, c. now simpl.
Qed.

Lemma append_inv_head (s t u : string) : s ++ t = s ++ u -> t = u.
Proof. induction s as [|a s IH]; simpl; [auto | intros [= E]; auto]. Qed.

Lemma count_slash_cluster_path (p i c : string) :
  count_slash (cluster_path p i c) =
  5 + count_slash p + count_slash i + count_slash c.
Proof.
  unfold cluster_path. rewrite !count_slash_app.
  change (count_slash "projects/") with 1.
  change (count_slash "/instances/") with 2.
  change (count_slash "/clusters/") with 2. lia.
Qed.

(** A canonical name with slash-free parts has one reading only. *)
Lemma cluster_path_inj (p i c p' i' c' : string) :
  count_slash p' = 0 -> count_slash i' = 0 -> count_slash c' = 0 ->
  cluster_path p i c = cluster_path p' i' c' ->
  p = p' /\ i = i' /\ c = c'.
Proof.
  intros Hp' Hi' Hc' E.
  pose proof (f_equal count_slash E) as Hn.
  rewrite !count_slash_cluster_path in Hn.
  assert (Hp : count_slash p = 0) by lia.
  assert (Hi : count_slash i = 0) by lia.
  apply count_slash_zero in Hp, Hi, Hp', Hi'.
  unfold cluster_path in E. apply append_inv_head in E.
  change ("/instances/" ++ ?x) with (String "/" ("instances/" ++ x)) in E.
  apply first_slash_unique in E as [-> E]; [|assumption..].
  apply append_inv_head in E.
  change ("/clusters/" ++ ?x) with (String "/" ("clusters/" ++ x)) in E.
  apply first_slash_unique in E as [-> E]; [|assumption..].
  apply append_inv_head in E. auto.
Qed.

Lemma cluster_path_app (p i c nl : string) :
  cluster_path p i c ++ nl = cluster_path p i (c ++ nl).
Proof. unfold cluster_path. now rewrite !append_assoc. Qed.

Lemma count_slash_newline : count_slash newline = 0.
Proof. reflexivity. Qed.

(** What a canonical-looking name must be made of for the check to
    accept it: the parts are the groups, up to one final newline. *)
Lemma parseResourceName_cluster_path (p i c p' i' c' : string) :
  parseResourceName (cluster_path p i c) = Some (p', i', c') ->
  p = p' /\ i = i' /\ segment p = true /\ segment i = true
  /\ is_cluster_id c' = true /\ (c = c' \/ c = c' ++ newline).
Proof.
  intros (Hp & Hi & Hc & E)%parseResourceName_Some.
  pose proof (count_slash_free _ (segment_slash_free _ Hp)) as Np.
  pose proof (count_slash_free _ (segment_slash_free _ Hi)) as Ni.
  pose proof (count_slash_free _ (cluster_id_slash_free _ Hc)) as Nc.
  destruct E as [E|E].
  - apply cluster_path_inj in E as (-> & -> & ->); auto 10.
  - rewrite cluster_path_app in E.
    apply cluster_path_inj in E as (-> & -> & ->); auto 10.
    rewrite count_slash_app, Nc. reflexivity.
Qed.

(** Every accepted name has exactly five slashes. *)
Lemma accepted_five_slashes (s : string) (r : string * string * string) :
  parseResourceName s = Some r -> count_slash s = 5.
Proof.
  destruct r as [[p i] c]. intros (Hp & Hi & Hc & E)%parseResourceName_Some.
  pose proof (count_slash_free _ (segment_slash_free _ Hp)) as Np.
  pose proof (count_slash_free _ (segment_slash_free _ Hi)) as Ni.
  pose proof (count_slash_free _ (cluster_id_slash_free _ Hc)) as Nc.
  destruct E as [-> | ->]; rewrite ?count_slash_app, count_slash_cluster_path,
    ?count_slash_newline; lia.
Qed.

(** The anchors at work: an accepted name is no longer accepted with a
    character in front of it, or with a further segment behind it. *)
Lemma leading_character_rejected (a : ascii) (s : string)
    (r : string * string * string) :
  parseResourceName s = Some r -> parseResourceName (String a s) = None.
Proof.
  destruct r as [[p i] c]. intros (_ & _ & _ & E)%parseResourceName_Some.
  destruct (parseResourceName (String a s)) as [[[p' i'] c']|] eqn:E';
    [|reflexivity].
  apply parseResourceName_Some in E' as (_ & _ & _ & E').
  exfalso. unfold cluster_path in E, E'.
  destruct E as [-> | ->], E' as [E'|E']; simpl in E'; discriminate.
Qed.

Lemma trailing_segment_rejected (s extra : string)
    (r : string * string * string) :
  parseResourceName s = Some r ->
  parseResourceName (s ++ "/" ++ extra) = None.
Proof.
  intros Hs%accepted_five_slashes.
  destruct (parseResourceName (s ++ "/" ++ extra)) as [r'|] eqn:E;
    [|reflexivity].
  apply accepted_five_slashes in E. rewrite count_slash_app, Hs in E.
  simpl in E. lia.
Qed.

(** ** The name check *)

(** C1 (the code departs from the claim). The pattern ends in [$], which
    Python also matches just before a newline that ends the subject: the
    canonical name followed by a newline is accepted, with the newline
    left out of the cluster id, and [from_pb] builds a cluster from a
    payload with that name. *)
Theorem C1_trailing_newline_accepted :
  parseResourceName ("projects/p1/instances/i1/clusters/c1" ++ newline)
  = Some ("p1", "i1", "c1")
  /\ fst (from_pb BaseCluster 3 2
            (example_heap ("projects/p1/instances/i1/clusters/c1" ++ newline)))
     = Ok 4.
Proof. split; vm_compute; reflexivity. Qed.

(** C3 (the code departs from the claim). The well-formed name yields
    its three parts and an uppercase cluster id is refused, but a name
    whose last segment is a cluster id followed by a newline, which is
    not of the form of a cluster id, is accepted. *)
Theorem C3_cluster_id_examples :
  parseResourceName "projects/p1/instances/i1/clusters/c1"
  = Some ("p1", "i1", "c1")
  /\ parseResourceName "projects/p1/instances/i1/clusters/C1" = None
  /\ is_cluster_id ("c1" ++ newline) = false
  /\ parseResourceName (cluster_path "p1" "i1" ("c1" ++ newline))
     = Some ("p1", "i1", "c1").
Proof. repeat split; vm_compute; reflexivity. Qed.

(** Apart from a final newline, a name whose last segment is not of the
    form of a cluster id is refused. *)
Lemma malformed_cluster_id_rejected (p i c : string) :
  is_cluster_id c = false ->
  (forall c', is_cluster_id c' = true -> c <> c' ++ newline) ->
  parseResourceName (cluster_path p i c) = None.
Proof.
  intros Hc Hnl.
  destruct (parseResourceName (cluster_path p i c)) as [[[p' i'] c']|] eqn:E;
    [|reflexivity].
  apply parseResourceName_cluster_path in E as (_ & _ & _ & _ & Hc' & [->| ->]).
  - congruence.
  - now destruct (Hnl c' Hc').
Qed.

(** C10. The project and instance parts need only be non-empty and free
    of slashes: a name with an empty project or an empty instance is
    refused, and with a well-formed cluster id the name is accepted, with
    its parts as the groups, exactly when both are segments. *)
Theorem C10_project_and_instance_segments (p i c : string) :
  parseResourceName (cluster_path "" i c) = None
  /\ parseResourceName (cluster_path p "" c) = None
  /\ (is_cluster_id c = true ->
      (parseResourceName (cluster_path p i c) = Some (p, i, c)
       <-> segment p = true /\ segment i = true)).
Proof.
  split; [reflexivity | split].
  - destruct (parseResourceName (cluster_path p "" c)) as [[[p' i'] c']|] eqn:E;
      [|reflexivity].
    now apply parseResourceName_cluster_path in E as (_ & _ & _ & ? & _).
  - intros Hc. split.
    + now intros (_ & _ & ? & ? & _)%parseResourceName_cluster_path.
    + intros [Hp Hi]. apply parseResourceName_Some. auto.
Qed.

Lemma C10_project_and_instance_segments_witness :
  is_cluster_id "c1" = true
  /\ parseResourceName (cluster_path "My_Project.9" "Inst A" "c1")
     = Some ("My_Project.9", "Inst A", "c1").
Proof.
  split; [reflexivity |].
  apply (C10_project_and_instance_segments "My_Project.9" "Inst A" "c1");
    [reflexivity | split; reflexivity].
Defined.

(** ** Computations on the store *)

Lemma bind_Ok {A B : Type} (m : M A) (k : A -> M B) (h h' : heap) (a : A) :
  m h = (Ok a, h') -> bind m k h = k a h'.
Proof. unfold bind. now intros ->. Qed.

Lemma bind_Raise {A B : Type} (m : M A) (k : A -> M B) (h h' : heap) (e : exn) :
  m h = (Raise e, h') -> bind m k h = (Raise e, h').
Proof. unfold bind. now intros ->. Qed.

Lemma read_pb_Ok (l : loc) (h : heap) (pb : instance_pb2.Cluster) :
  h !! l = Some (OPb pb) -> read_pb l h = (Ok pb, h).
Proof. unfold read_pb. now intros ->. Qed.

Lemma read_instance_Ok (l : loc) (h : heap) (i : Instance) :
  h !! l = Some (OInstance i) -> read_instance l h = (Ok i, h).
Proof. unfold read_instance. now intros ->. Qed.

Lemma read_client_Ok (l : loc) (h : heap) (c : Client) :
  h !! l = Some (OClient c) -> read_client l h = (Ok c, h).
Proof. unfold read_client. now intros ->. Qed.

Lemma read_cluster_Ok (l : loc) (h : heap) (c : Cluster) :
  h !! l = Some (OCluster c) -> read_cluster l h = (Ok c, h).
Proof. unfold read_cluster. now intros ->. Qed.

(** Reads leave the store as it is, whatever they find. *)
Lemma read_pb_heap (l : loc) (h : heap) : snd (read_pb l h) = h.
Proof. unfold read_pb. now destruct (h !! l) as [[]|]. Qed.

Lemma read_instance_heap (l : loc) (h : heap) : snd (read_instance l h) = h.
Proof. unfold read_instance. now destruct (h !! l) as [[]|]. Qed.

Lemma read_client_heap (l : loc) (h : heap) : snd (read_client l h) = h.
Proof. unfold read_client. now destruct (h !! l) as [[]|]. Qed.

Lemma modify_cluster_Ok (l : loc) (f : Cluster -> Cluster) (h : heap)
    (c : Cluster) :
  h !! l = Some (OCluster c) ->
  modify_cluster l f h = (Ok tt, <[l := OCluster (f c)]> h).
Proof.
  intros H. unfold modify_cluster.
  now rewrite (bind_Ok _ _ _ _ _ (read_cluster_Ok _ _ _ H)).
Qed.

Lemma split_not_nil (sep : ascii) (s : string) : split sep s <> [].
Proof.
  destruct s as [|c s]; simpl; [discriminate |].
  destruct (Ascii.eqb c sep); [discriminate |].
  destruct (split sep s); discriminate.
Qed.

Lemma getitem_last_Ok {A : Type} (l : list A) (d : A) (h : heap) :
  l <> [] -> getitem_last l h = (Ok (List.last l d), h).
Proof.
  intros Hl. unfold getitem_last.
  destruct (rev l) as [|x r] eqn:E.
  - apply (f_equal (@rev A)) in E. rewrite rev_involutive in E. contradiction.
  - apply (f_equal (@rev A)) in E. rewrite rev_involutive in E. subst l.
    simpl. now rewrite last_last.
Qed.

Lemma split_slash_free (s : string) :
  str_forall (in_class not_slash) s = true -> split "/" s = [s].
Proof.
  induction s as [|c s IH]; simpl; [reflexivity |].
  rewrite not_slash_spec. intros [Hc Hs]%andb_true_iff.
  apply negb_true_iff in Hc. rewrite Hc. now rewrite (IH Hs).
Qed.

Lemma split_two (sep : ascii) (pre post : string) :
  exists w w' ws, split sep (pre ++ String sep post) = w :: w' :: ws.
Proof.
  induction pre as [|c pre (w & w' & ws & IH)]; simpl.
  - rewrite Ascii.eqb_refl. destruct (split sep post) as [|x xs] eqn:E.
    + now apply split_not_nil in E.
    + eauto.
  - destruct (Ascii.eqb c sep); rewrite IH; eauto.
Qed.

Lemma last_split_app (sep : ascii) (pre post d : string) :
  List.last (split sep (pre ++ String sep post)) d
  = List.last (split sep post) d.
Proof.
  induction pre as [|c pre IH]; simpl.
  - rewrite Ascii.eqb_refl. destruct (split sep post) as [|x xs] eqn:E.
    + now apply split_not_nil in E.
    + reflexivity.
  - destruct (split_two sep pre post) as (w & w' & ws & E).
    rewrite E in *. now destruct (Ascii.eqb c sep).
Qed.

(** The last segment of a path that ends in a slash and a slash-free
    text is that text, and a slash-free text is its own last segment. *)
Lemma last_segment_app (pre seg : string) :
  str_forall (in_class not_slash) seg = true ->
  last_segment (pre ++ "/" ++ seg) = seg.
Proof.
  intros H. unfold last_segment.
  change ("/" ++ seg) with (String "/" seg).
  now rewrite last_split_app, split_slash_free.
Qed.

Lemma last_segment_slash_free (seg : string) :
  str_forall (in_class not_slash) seg = true -> last_segment seg = seg.
Proof. intros H. unfold last_segment. now rewrite split_slash_free. Qed.

(** The last segment never holds a slash, and the path is that segment,
    alone or behind a slash. *)
Lemma last_segment_spec (s : string) :
  str_forall (in_class not_slash) (last_segment s) = true
  /\ (s = last_segment s \/ exists pre, s = pre ++ "/" ++ last_segment s).
Proof.
  unfold last_segment. induction s as [|c s [IH1 IH2]]; [simpl; auto |].
  pose proof (split_not_nil "/" s) as Hne.
  cbn [split]. destruct (split "/" s) as [|x xs] eqn:E; [contradiction |].
  destruct (Ascii.eqb_spec c "/") as [->|Hc].
  - change (List.last ("" :: x :: xs) "") with (List.last (x :: xs) "").
    split; [exact IH1 |]. right. destruct IH2 as [IH2|[pre IH2]].
    + exists "". now rewrite <- IH2.
    + exists (String "/" pre).
      change (String "/" s = String "/" (pre ++ "/" ++ List.last (x :: xs) "")).
      now f_equal.
  - destruct xs as [|y ys].
    + cbn [List.last] in *. cbn [str_forall]. rewrite not_slash_spec.
      apply Ascii.eqb_neq in Hc. rewrite Hc, IH1. split; [reflexivity |].
      left. destruct IH2 as [IH2|[pre IH2]]; [now rewrite <- IH2 |].
      exfalso. destruct (split_two "/" pre x) as (w & w' & ws & E').
      change (String "/" x) with ("/" ++ x) in E'.
      rewrite <- IH2, E in E'. discriminate.
    + change (List.last (String c x :: y :: ys) "")
        with (List.last (y :: ys) "").
      change (List.last (x :: y :: ys) "")
        with (List.last (y :: ys) "") in IH1, IH2.
      split; [exact IH1 |]. right. destruct IH2 as [IH2|[pre IH2]].
      * exfalso. rewrite <- IH2 in IH1.
        rewrite (split_slash_free _ IH1) in E. discriminate.
      * exists (String c pre).
        change (String c s = String c (pre ++ "/" ++ List.last (y :: ys) "")).
        now f_equal.
Qed.

(** ** [_update_from_pb] and [from_pb] *)

(** On a cluster and a payload in the store, the refresh returns, and
    the four attributes are those of the payload whatever they were. *)
Lemma _update_from_pb_Ok (self cluster_pb : loc) (h : heap) (c : Cluster)
    (pb : instance_pb2.Cluster) :
  h !! self = Some (OCluster c) -> h !! cluster_pb = Some (OPb pb) ->
  _update_from_pb self cluster_pb h =
  (Ok tt,
   <[self := OCluster
       {| ob_type := ob_type c; cluster_id := cluster_id c;
          _instance := _instance c;
          location_id := Some (last_segment (instance_pb2.location pb));
          serve_nodes := Some (instance_pb2.serve_nodes pb);
          default_storage_type := Some (instance_pb2.default_storage_type pb);
          _state := Some (instance_pb2.state pb) |}]> h).
Proof.
  intros Hc Hpb. assert (Hne : self <> cluster_pb) by congruence.
  unfold _update_from_pb.
  erewrite bind_Ok; cycle 1.
  { erewrite bind_Ok by (apply read_pb_Ok; eassumption).
    erewrite bind_Ok by (apply getitem_last_Ok with (d := ""), split_not_nil).
    apply modify_cluster_Ok; eassumption. }
  erewrite bind_Ok; cycle 1.
  { erewrite bind_Ok
      by (apply read_pb_Ok; rewrite lookup_insert_ne by assumption; eassumption).
    apply modify_cluster_Ok, lookup_insert_eq. }
  rewrite insert_insert_eq.
  erewrite bind_Ok; cycle 1.
  { erewrite bind_Ok
      by (apply read_pb_Ok; rewrite lookup_insert_ne by assumption; eassumption).
    apply modify_cluster_Ok, lookup_insert_eq. }
  rewrite insert_insert_eq.
  erewrite bind_Ok
    by (apply read_pb_Ok; rewrite lookup_insert_ne by assumption; eassumption).
  erewrite modify_cluster_Ok by apply lookup_insert_eq.
  now rewrite insert_insert_eq.
Qed.

Lemma fresh_lookup (h : heap) : h !! fresh (dom h) = None.
Proof. apply not_elem_of_dom, is_fresh. Qed.

Lemma group__Ok (m : match_object) (name t : string) (h : heap) :
  group m name = Some t -> group_ m name h = (Ok t, h).
Proof. unfold group_. now intros ->. Qed.

(** What [from_pb] does on a payload and an instance in the store, by
    the outcome of the name check and of the two comparisons. *)
Lemma from_pb_no_match (cls : pyclass) (cluster_pb instance : loc) (h : heap)
    (pb : instance_pb2.Cluster) :
  h !! cluster_pb = Some (OPb pb) ->
  parseResourceName (instance_pb2.name pb) = None ->
  from_pb cls cluster_pb instance h =
  (Raise (ValueError [msg_format; instance_pb2.name pb]), h).
Proof.
  intros Hpb Hparse%parseResourceName_None. unfold from_pb.
  erewrite bind_Ok by (apply read_pb_Ok; eassumption).
  now rewrite Hparse.
Qed.

Lemma from_pb_instance_mismatch (cls : pyclass) (cluster_pb instance : loc)
    (h : heap) (pb : instance_pb2.Cluster) (inst : Instance) (p i c : string) :
  h !! cluster_pb = Some (OPb pb) -> h !! instance = Some (OInstance inst) ->
  parseResourceName (instance_pb2.name pb) = Some (p, i, c) ->
  i <> instance_id inst ->
  from_pb cls cluster_pb instance h = (Raise (ValueError [msg_instance]), h).
Proof.
  intros Hpb Hinst Hparse Hne. unfold from_pb.
  erewrite bind_Ok by (apply read_pb_Ok; eassumption).
  destruct (re_match _ _) as [m|] eqn:E;
    [|apply parseResourceName_None in E; congruence].
  apply re_match_groups in E as (p' & i' & c' & Hparse' & _ & Hi & _).
  rewrite Hparse in Hparse'. injection Hparse' as <- <- <-.
  erewrite bind_Ok by (apply group__Ok; eassumption).
  erewrite bind_Ok by (apply read_instance_Ok; eassumption).
  apply String.eqb_neq in Hne. now rewrite Hne.
Qed.

Lemma from_pb_project_mismatch (cls : pyclass) (cluster_pb instance : loc)
    (h : heap) (pb : instance_pb2.Cluster) (inst : Instance) (client : Client)
    (p i c : string) :
  h !! cluster_pb = Some (OPb pb) -> h !! instance = Some (OInstance inst) ->
  h !! _client inst = Some (OClient client) ->
  parseResourceName (instance_pb2.name pb) = Some (p, i, c) ->
  i = instance_id inst -> p <> project client ->
  from_pb cls cluster_pb instance h = (Raise (ValueError [msg_project]), h).
Proof.
  intros Hpb Hinst Hclient Hparse -> Hne. unfold from_pb.
  erewrite bind_Ok by (apply read_pb_Ok; eassumption).
  destruct (re_match _ _) as [m|] eqn:E;
    [|apply parseResourceName_None in E; congruence].
  apply re_match_groups in E as (p' & i' & c' & Hparse' & Hp & Hi & _).
  rewrite Hparse in Hparse'. injection Hparse' as <- <- <-.
  erewrite bind_Ok by (apply group__Ok; eassumption).
  erewrite bind_Ok by (apply read_instance_Ok; eassumption).
  rewrite String.eqb_refl. cbn [negb].
  erewrite bind_Ok by (apply group__Ok; eassumption).
  erewrite bind_Ok by (apply read_client_Ok; eassumption).
  apply String.eqb_neq in Hne. now rewrite Hne.
Qed.

Lemma from_pb_Ok (cls : pyclass) (cluster_pb instance : loc)
    (h : heap) (pb : instance_pb2.Cluster) (inst : Instance) (client : Client)
    (c : string) :
  h !! cluster_pb = Some (OPb pb) -> h !! instance = Some (OInstance inst) ->
  h !! _client inst = Some (OClient client) ->
  parseResourceName (instance_pb2.name pb)
  = Some (project client, instance_id inst, c) ->
  from_pb cls cluster_pb instance h =
  (Ok (fresh (dom h)),
   <[fresh (dom h) := OCluster
       {| ob_type := cls; cluster_id := c; _instance := instance;
          location_id := Some (last_segment (instance_pb2.location pb));
          serve_nodes := Some (instance_pb2.serve_nodes pb);
          default_storage_type := Some (instance_pb2.default_storage_type pb);
          _state := Some (instance_pb2.state pb) |}]> h).
Proof.
  intros Hpb Hinst Hclient Hparse. unfold from_pb.
  erewrite bind_Ok by (apply read_pb_Ok; eassumption).
  destruct (re_match _ _) as [m|] eqn:E;
    [|apply parseResourceName_None in E; congruence].
  apply re_match_groups in E as (p' & i' & c' & Hparse' & Hp & Hi & Hc).
  rewrite Hparse in Hparse'. injection Hparse' as <- <- <-.
  erewrite bind_Ok by (apply group__Ok; eassumption).
  erewrite bind_Ok by (apply read_instance_Ok; eassumption).
  rewrite String.eqb_refl. cbn [negb].
  erewrite bind_Ok by (apply group__Ok; eassumption).
  erewrite bind_Ok by (apply read_client_Ok; eassumption).
  rewrite String.eqb_refl. cbn [negb].
  erewrite bind_Ok by (apply group__Ok; eassumption).
  unfold __init__. erewrite bind_Ok by reflexivity.
  assert (Hne : fresh (dom h) <> cluster_pb).
  { intros Heq. pose proof (fresh_lookup h) as Hf. rewrite Heq in Hf. congruence. }
  erewrite bind_Ok; cycle 1.
  { apply _update_from_pb_Ok;
      [apply lookup_insert_eq | rewrite lookup_insert_ne by assumption; eassumption]. }
  now rewrite insert_insert_eq.
Qed.

(** *** What a computation leaves alone *)

Lemma frame_at_same {A : Type} (W : loc -> Prop) (m : M A) (h : heap) :
  snd (m h) = h -> frame_at W m h.
Proof. intros E l _. now rewrite E. Qed.

Lemma frame_at_bind {A B : Type} (W : loc -> Prop) (m : M A) (k : A -> M B)
    (h : heap) :
  frame_at W m h ->
  (forall a h', m h = (Ok a, h') -> frame_at W (k a) h') ->
  frame_at W (bind m k) h.
Proof.
  intros Hm Hk l Hl. specialize (Hm l Hl). unfold bind.
  destruct (m h) as [[a|e] h'] eqn:E; simpl in *; [|assumption].
  now rewrite (Hk a h' eq_refl l Hl).
Qed.

(** A read that returns leaves the store it read. *)
Lemma read_pb_inv (l : loc) (h h' : heap) (pb : instance_pb2.Cluster) :
  read_pb l h = (Ok pb, h') -> h' = h /\ h !! l = Some (OPb pb).
Proof.
  unfold read_pb. destruct (h !! l) as [[]|]; intros [= <- <-] || discriminate.
  auto.
Qed.

Lemma read_instance_inv (l : loc) (h h' : heap) (i : Instance) :
  read_instance l h = (Ok i, h') -> h' = h /\ h !! l = Some (OInstance i).
Proof.
  unfold read_instance.
  destruct (h !! l) as [[]|]; intros [= <- <-] || discriminate. auto.
Qed.

Lemma read_client_inv (l : loc) (h h' : heap) (c : Client) :
  read_client l h = (Ok c, h') -> h' = h /\ h !! l = Some (OClient c).
Proof.
  unfold read_client.
  destruct (h !! l) as [[]|]; intros [= <- <-] || discriminate. auto.
Qed.

Lemma read_cluster_inv (l : loc) (h h' : heap) (c : Cluster) :
  read_cluster l h = (Ok c, h') -> h' = h /\ h !! l = Some (OCluster c).
Proof.
  unfold read_cluster.
  destruct (h !! l) as [[]|]; intros [= <- <-] || discriminate. auto.
Qed.

Lemma read_cluster_heap (l : loc) (h : heap) : snd (read_cluster l h) = h.
Proof. unfold read_cluster. now destruct (h !! l) as [[]|]. Qed.

Lemma group__heap (m : match_object) (name : string) (h : heap) :
  snd (group_ m name h) = h.
Proof. unfold group_. now destruct (group m name). Qed.

Lemma getitem_last_heap {A : Type} (l : list A) (h : heap) :
  snd (getitem_last l h) = h.
Proof. unfold getitem_last. now destruct (rev l). Qed.

Lemma frame_at_modify_cluster (W : loc -> Prop) (self : loc)
    (f : Cluster -> Cluster) (h : heap) :
  W self -> frame_at W (modify_cluster self f) h.
Proof.
  intros HW. unfold modify_cluster. apply frame_at_bind.
  - apply frame_at_same, read_cluster_heap.
  - intros c h' _ l Hl. simpl. apply lookup_insert_ne. congruence.
Qed.

(** The refresh writes to [self] only. *)
Lemma _update_from_pb_frame (W : loc -> Prop) (self cluster_pb : loc)
    (h : heap) :
  W self -> frame_at W (_update_from_pb self cluster_pb) h.
Proof.
  intros HW. unfold _update_from_pb.
  repeat first
    [ apply frame_at_modify_cluster; assumption
    | apply frame_at_same, read_pb_heap
    | apply frame_at_same, getitem_last_heap
    | apply frame_at_bind; [|intros ? ? _] ].
Qed.

Lemma Ok_same_heap {A : Type} (m : M A) (h h' : heap) (a : A) :
  snd (m h) = h -> m h = (Ok a, h') -> h' = h.
Proof. intros Hs E. now rewrite E in Hs. Qed.

(** [from_pb] writes to the location of the object it creates only. *)
Lemma from_pb_frame_at (cls : pyclass) (cluster_pb instance : loc) (h : heap) :
  frame_at (eq (fresh (dom h))) (from_pb cls cluster_pb instance) h.
Proof.
  unfold from_pb.
  apply frame_at_bind; [apply frame_at_same, read_pb_heap |].
  intros pb h' [-> _]%read_pb_inv.
  destruct (re_match _ _) as [m|]; [|now apply frame_at_same].
  apply frame_at_bind; [apply frame_at_same, group__heap |].
  intros gi h' ->%(Ok_same_heap _ _ _ _ (group__heap _ _ _)).
  apply frame_at_bind; [apply frame_at_same, read_instance_heap |].
  intros inst h' [-> _]%read_instance_inv.
  destruct (negb _); [now apply frame_at_same |].
  apply frame_at_bind; [apply frame_at_same, group__heap |].
  intros gp h' ->%(Ok_same_heap _ _ _ _ (group__heap _ _ _)).
  apply frame_at_bind; [apply frame_at_same, read_client_heap |].
  intros client h' [-> _]%read_client_inv.
  destruct (negb _); [now apply frame_at_same |].
  apply frame_at_bind; [apply frame_at_same, group__heap |].
  intros c h' ->%(Ok_same_heap _ _ _ _ (group__heap _ _ _)).
  apply frame_at_bind.
  - intros l Hl. simpl. apply lookup_insert_ne. congruence.
  - intros result h' [= <- <-].
    apply frame_at_bind; [now apply _update_from_pb_frame |].
    intros _ h'' _. now apply frame_at_same.
Qed.

(** C8. [from_pb] leaves the payload as it was: whatever the call does,
    return or raise, the payload object, and so each of its fields
    [name], [location], [serve_nodes], [default_storage_type] and
    [state], is the same in the store after the call. *)
Theorem C8_from_pb_keeps_payload (cls : pyclass) (cluster_pb instance : loc)
    (h : heap) (pb : instance_pb2.Cluster) :
  h !! cluster_pb = Some (OPb pb) ->
  snd (from_pb cls cluster_pb instance h) !! cluster_pb = Some (OPb pb).
Proof.
  intros Hpb. rewrite <- Hpb. apply from_pb_frame_at.
  intros Heq. rewrite <- Heq, fresh_lookup in Hpb. discriminate.
Qed.

Lemma C8_from_pb_keeps_payload_witness :
  example_heap example_name !! 3 = Some (OPb (example_pb example_name))
  /\ fst (from_pb BaseCluster 3 2 (example_heap example_name)) = Ok 4
  /\ snd (from_pb BaseCluster 3 2 (example_heap example_name)) !! 3
     = Some (OPb (example_pb example_name)).
Proof.
  split; [reflexivity | split; [reflexivity |]].
  apply (C8_from_pb_keeps_payload BaseCluster 3 2). reflexivity.
Defined.

(** C9. Each of [reload], [exists], [create], [update] and [delete]
    raises [NotImplementedError] on every object and in every store, and
    leaves the store as it is. *)
Theorem C9_lifecycle_not_implemented (self : loc) (h : heap) :
  reload self h = (Raise NotImplementedError, h)
  /\ exists_ self h = (Raise NotImplementedError, h)
  /\ create self h = (Raise NotImplementedError, h)
  /\ update self h = (Raise NotImplementedError, h)
  /\ delete self h = (Raise NotImplementedError, h).
Proof. repeat split. Qed.

(** C2. On a payload and an instance in the store, [from_pb] raises one
    of three errors that can be told apart: when the name does not match
    the pattern, a [ValueError] with the format message and the name;
    when the instance group differs from [instance.instance_id], whatever
    the project group is, a [ValueError] with the instance message; when
    the instance group agrees and the project group differs from
    [instance._client.project], a [ValueError] with the project message.
    Each leaves the store as it is. *)
Theorem C2_from_pb_errors (cls : pyclass) (cluster_pb instance : loc)
    (h : heap) (pb : instance_pb2.Cluster) (inst : Instance) (client : Client) :
  h !! cluster_pb = Some (OPb pb) -> h !! instance = Some (OInstance inst) ->
  h !! _client inst = Some (OClient client) ->
  (parseResourceName (instance_pb2.name pb) = None ->
   from_pb cls cluster_pb instance h =
   (Raise (ValueError [msg_format; instance_pb2.name pb]), h))
  /\ (forall p i c,
        parseResourceName (instance_pb2.name pb) = Some (p, i, c) ->
        i <> instance_id inst ->
        from_pb cls cluster_pb instance h =
        (Raise (ValueError [msg_instance]), h))
  /\ (forall p i c,
        parseResourceName (instance_pb2.name pb) = Some (p, i, c) ->
        i = instance_id inst -> p <> project client ->
        from_pb cls cluster_pb instance h =
        (Raise (ValueError [msg_project]), h))
  /\ ValueError [msg_format; instance_pb2.name pb] <> ValueError [msg_instance]
  /\ ValueError [msg_format; instance_pb2.name pb] <> ValueError [msg_project]
  /\ ValueError [msg_instance] <> ValueError [msg_project].
Proof.
  intros Hpb Hinst Hclient. repeat split.
  - now apply from_pb_no_match.
  - intros p i c. now apply from_pb_instance_mismatch.
  - intros p i c. now apply from_pb_project_mismatch with (client := client).
  - discriminate.
  - discriminate.
  - discriminate.
Qed.

Lemma C2_from_pb_errors_witness :
  from_pb BaseCluster 3 2 (example_heap "clusters/c1")
  = (Raise (ValueError [msg_format; "clusters/c1"]), example_heap "clusters/c1")
  /\ from_pb BaseCluster 3 2
       (example_heap "projects/p2/instances/i2/clusters/c1")
     = (Raise (ValueError [msg_instance]),
        example_heap "projects/p2/instances/i2/clusters/c1")
  /\ from_pb BaseCluster 3 2
       (example_heap "projects/p2/instances/i1/clusters/c1")
     = (Raise (ValueError [msg_project]),
        example_heap "projects/p2/instances/i1/clusters/c1").
Proof.
  split; [|split].
  - apply (C2_from_pb_errors BaseCluster 3 2 (example_heap "clusters/c1")
             (example_pb "clusters/c1") (mkInstance "i1" 1) (mkClient "p1"));
      reflexivity.
  - apply (C2_from_pb_errors BaseCluster 3 2
             (example_heap "projects/p2/instances/i2/clusters/c1")
             (example_pb "projects/p2/instances/i2/clusters/c1")
             (mkInstance "i1" 1) (mkClient "p1") eq_refl eq_refl eq_refl)
      with (p := "p2") (i := "i2") (c := "c1"); [reflexivity | discriminate].
  - apply (C2_from_pb_errors BaseCluster 3 2
             (example_heap "projects/p2/instances/i1/clusters/c1")
             (example_pb "projects/p2/instances/i1/clusters/c1")
             (mkInstance "i1" 1) (mkClient "p1") eq_refl eq_refl eq_refl)
      with (p := "p2") (i := "i1") (c := "c1");
      [reflexivity | reflexivity | discriminate].
Defined.

(** C4. When the name matches and its instance and project groups are
    those of the instance and its client, [from_pb] returns a new object,
    at a location the store did not have: its class is [cls], its
    [cluster_id] the cluster id group of the payload name, its
    [_instance] the instance given, its [location_id] the last
    slash-delimited segment of the payload location, and its
    [serve_nodes], [default_storage_type] and [_state] those of the
    payload. The same refresh on any cluster object replaces these four
    attributes, whatever they held, and keeps the others. *)
Theorem C4_from_pb_result (cls : pyclass) (cluster_pb instance : loc)
    (h : heap) (pb : instance_pb2.Cluster) (inst : Instance) (client : Client)
    (p i c : string) :
  h !! cluster_pb = Some (OPb pb) -> h !! instance = Some (OInstance inst) ->
  h !! _client inst = Some (OClient client) ->
  parseResourceName (instance_pb2.name pb) = Some (p, i, c) ->
  i = instance_id inst -> p = project client ->
  (exists result seg,
     h !! result = None
     /\ from_pb cls cluster_pb instance h =
        (Ok result,
         <[result := OCluster
             {| ob_type := cls; cluster_id := c; _instance := instance;
                location_id := Some seg;
                serve_nodes := Some (instance_pb2.serve_nodes pb);
                default_storage_type :=
                  Some (instance_pb2.default_storage_type pb);
                _state := Some (instance_pb2.state pb) |}]> h)
     /\ str_forall (in_class not_slash) seg = true
     /\ (instance_pb2.location pb = seg
         \/ exists pre, instance_pb2.location pb = pre ++ "/" ++ seg))
  /\ (forall self old h1,
        h1 !! self = Some (OCluster old) -> h1 !! cluster_pb = Some (OPb pb) ->
        _update_from_pb self cluster_pb h1 =
        (Ok tt,
         <[self := OCluster
             {| ob_type := ob_type old; cluster_id := cluster_id old;
                _instance := _instance old;
                location_id := Some (last_segment (instance_pb2.location pb));
                serve_nodes := Some (instance_pb2.serve_nodes pb);
                default_storage_type :=
                  Some (instance_pb2.default_storage_type pb);
                _state := Some (instance_pb2.state pb) |}]> h1)).
Proof.
  intros Hpb Hinst Hclient Hparse -> ->. split.
  - exists (fresh (dom h)), (last_segment (instance_pb2.location pb)).
    destruct (last_segment_spec (instance_pb2.location pb)) as [Hseg Hloc].
    split; [apply fresh_lookup | split; [|split; assumption]].
    now apply from_pb_Ok with (inst := inst) (client := client).
  - intros self old h1. apply _update_from_pb_Ok.
Qed.

Lemma C4_from_pb_result_witness :
  exists result seg,
    example_heap example_name !! result = None
    /\ from_pb (Subclass "Cluster" BaseCluster) 3 2 (example_heap example_name)
       = (Ok result,
          <[result := OCluster
              {| ob_type := Subclass "Cluster" BaseCluster; cluster_id := "c1";
                 _instance := 2; location_id := Some seg;
                 serve_nodes := Some 3%Z; default_storage_type := Some 1%Z;
                 _state := Some 1%Z |}]> (example_heap example_name))
    /\ str_forall (in_class not_slash) seg = true
    /\ ("projects/p1/locations/us-east1-b" = seg
        \/ exists pre, "projects/p1/locations/us-east1-b" = pre ++ "/" ++ seg).
Proof.
  exact (proj1 (C4_from_pb_result (Subclass "Cluster" BaseCluster) 3 2
                  (example_heap example_name) (example_pb example_name)
                  (mkInstance "i1" 1) (mkClient "p1") "p1" "i1" "c1"
                  eq_refl eq_refl eq_refl eq_refl eq_refl eq_refl)).
Defined.

(** ** [_to_pb], [name] and [__eq__] *)

Lemma Cluster_init_sendable (location : string) (n t : option Z) :
  sendable n = true -> sendable t = true ->
  instance_pb2.Cluster_init location n t =
  inr {| instance_pb2.name := "";
         instance_pb2.location := location;
         instance_pb2.serve_nodes := default 0%Z n;
         instance_pb2.default_storage_type := default 0%Z t;
         instance_pb2.state := 0 |}.
Proof.
  unfold sendable, instance_pb2.Cluster_init. now intros -> ->.
Qed.

Lemma _to_pb_Ok (self : loc) (h : heap) (c : Cluster) (inst : Instance)
    (client : Client) :
  h !! self = Some (OCluster c) -> h !! _instance c = Some (OInstance inst) ->
  h !! _client inst = Some (OClient client) ->
  sendable (serve_nodes c) = true ->
  sendable (default_storage_type c) = true ->
  _to_pb self h =
  (Ok (fresh (dom h)),
   <[fresh (dom h) := OPb
       {| instance_pb2.name := "";
          instance_pb2.location :=
            location_path (project client) (location_id c);
          instance_pb2.serve_nodes := default 0%Z (serve_nodes c);
          instance_pb2.default_storage_type :=
            default 0%Z (default_storage_type c);
          instance_pb2.state := 0 |}]> h).
Proof.
  intros Hc Hinst Hclient Hn Ht. unfold _to_pb.
  erewrite bind_Ok by (apply read_cluster_Ok; eassumption).
  erewrite bind_Ok by (apply read_instance_Ok; eassumption).
  erewrite bind_Ok by (apply read_client_Ok; eassumption).
  cbv zeta. now rewrite (Cluster_init_sendable _ _ _ Hn Ht).
Qed.

(** An integer attribute outside the range of its field makes [_to_pb]
    raise, the node count before the storage type, and nothing is
    written. *)
Lemma _to_pb_Raise (self : loc) (h : heap) (c : Cluster) (inst : Instance)
    (client : Client) :
  h !! self = Some (OCluster c) -> h !! _instance c = Some (OInstance inst) ->
  h !! _client inst = Some (OClient client) ->
  (sendable (serve_nodes c) = false ->
   _to_pb self h =
   (Raise (ValueError [msg_out_of_range (default 0%Z (serve_nodes c))]), h))
  /\ (sendable (serve_nodes c) = true ->
      sendable (default_storage_type c) = false ->
      _to_pb self h =
      (Raise (ValueError
                [msg_out_of_range (default 0%Z (default_storage_type c))]), h)).
Proof.
  intros Hc Hinst Hclient. unfold _to_pb.
  erewrite bind_Ok by (apply read_cluster_Ok; eassumption).
  erewrite bind_Ok by (apply read_instance_Ok; eassumption).
  erewrite bind_Ok by (apply read_client_Ok; eassumption).
  cbv zeta. unfold sendable, instance_pb2.Cluster_init. split.
  - now intros ->.
  - now intros -> ->.
Qed.

Lemma name_Ok (self : loc) (h : heap) (c : Cluster) (inst : Instance)
    (client : Client) :
  h !! self = Some (OCluster c) -> h !! _instance c = Some (OInstance inst) ->
  h !! _client inst = Some (OClient client) ->
  name self h =
  (Ok (cluster_path (project client) (instance_id inst) (cluster_id c)), h).
Proof.
  intros Hc Hinst Hclient. unfold name.
  erewrite bind_Ok by (apply read_cluster_Ok; eassumption).
  erewrite bind_Ok by (apply read_instance_Ok; eassumption).
  erewrite bind_Ok by (apply read_client_Ok; eassumption).
  reflexivity.
Qed.

Lemma pyclass_eqb_refl (c : pyclass) : pyclass_eqb c c = true.
Proof.
  induction c as [|n b IH]; simpl; [reflexivity |].
  now rewrite String.eqb_refl, IH.
Qed.

Lemma issubclass_refl (c : pyclass) : issubclass c c = true.
Proof. destruct c; simpl; now rewrite ?String.eqb_refl, ?pyclass_eqb_refl. Qed.

Lemma __eq___same_identity (self other : loc) (h : heap) (c o : Cluster) :
  h !! self = Some (OCluster c) -> h !! other = Some (OCluster o) ->
  ob_type o = ob_type c -> cluster_id o = cluster_id c ->
  _instance o = _instance c ->
  __eq__ self other h = (Ok (PyBool true), h).
Proof.
  intros Hc Ho Ht Hid Hinst. unfold __eq__.
  erewrite bind_Ok by (apply read_cluster_Ok; eassumption).
  unfold isinstance at 1. unfold bind at 1. rewrite Ho, Ht, issubclass_refl.
  cbn [negb].
  erewrite bind_Ok by (apply read_cluster_Ok; eassumption).
  rewrite Hid, String.eqb_refl, Hinst.
  unfold Instance__eq__, bind, ret. now rewrite Nat.eqb_refl.
Qed.

(** C6. [__eq__] holds of every cluster object and itself, and of any
    two cluster objects of the same class with the same [cluster_id] and
    the same instance: no hypothesis bears on [location_id],
    [serve_nodes], [default_storage_type] or [_state], which may differ. *)
Theorem C6_eq_identity_only (self other : loc) (h : heap) (c o : Cluster) :
  h !! self = Some (OCluster c) -> h !! other = Some (OCluster o) ->
  ob_type o = ob_type c -> cluster_id o = cluster_id c ->
  _instance o = _instance c ->
  __eq__ self self h = (Ok (PyBool true), h)
  /\ __eq__ self other h = (Ok (PyBool true), h).
Proof.
  intros Hc Ho Ht Hid Hinst. split.
  - now apply __eq___same_identity with (c := c) (o := c).
  - now apply __eq___same_identity with (c := c) (o := o).
Qed.

Lemma C6_eq_identity_only_witness :
  __eq__ 4 5
    (<[5 := OCluster (mkCluster BaseCluster "c1" 2 (Some "europe-west1-c")
                        (Some 30%Z) (Some 2%Z) (Some 3%Z))]>
       (example_cluster_heap
          (mkCluster BaseCluster "c1" 2 (Some "us-east1-b") (Some 3%Z)
             (Some 1%Z) (Some 1%Z))))
  = (Ok (PyBool true),
     <[5 := OCluster (mkCluster BaseCluster "c1" 2 (Some "europe-west1-c")
                        (Some 30%Z) (Some 2%Z) (Some 3%Z))]>
       (example_cluster_heap
          (mkCluster BaseCluster "c1" 2 (Some "us-east1-b") (Some 3%Z)
             (Some 1%Z) (Some 1%Z)))).
Proof.
  apply (C6_eq_identity_only 4 5 _
           (mkCluster BaseCluster "c1" 2 (Some "us-east1-b") (Some 3%Z)
              (Some 1%Z) (Some 1%Z))
           (mkCluster BaseCluster "c1" 2 (Some "europe-west1-c") (Some 30%Z)
              (Some 2%Z) (Some 3%Z))); reflexivity.
Defined.

(** C7. [name] is computed from the store as it is at the call, and
    writes nothing: it returns the path of the project of the client of
    the instance, the instance id and the cluster id, and after the
    client's project is assigned between two calls the second call
    returns the path with the new project. *)
Theorem C7_name_not_cached (self : loc) (h : heap) (c : Cluster)
    (inst : Instance) (client : Client) (p' : string) :
  h !! self = Some (OCluster c) -> h !! _instance c = Some (OInstance inst) ->
  h !! _client inst = Some (OClient client) ->
  name self h =
  (Ok (cluster_path (project client) (instance_id inst) (cluster_id c)), h)
  /\ (n1 <- name self ;;
      set_project (_client inst) p' ;;
      n2 <- name self ;;
      ret (n1, n2)) h =
     (Ok (cluster_path (project client) (instance_id inst) (cluster_id c),
          cluster_path p' (instance_id inst) (cluster_id c)),
      <[_client inst := OClient (mkClient p')]> h).
Proof.
  intros Hc Hinst Hclient.
  assert (H1 : _client inst <> self) by congruence.
  assert (H2 : _client inst <> _instance c) by congruence.
  split; [now apply name_Ok |].
  erewrite bind_Ok by (apply name_Ok; eassumption).
  unfold set_project.
  erewrite bind_Ok;
    [|erewrite bind_Ok by (apply read_client_Ok; eassumption); reflexivity].
  erewrite bind_Ok; [reflexivity |].
  apply (name_Ok self _ c inst (mkClient p')).
  - now rewrite lookup_insert_ne.
  - now rewrite lookup_insert_ne.
  - apply lookup_insert_eq.
Qed.

Lemma C7_name_not_cached_witness :
  (n1 <- name 4 ;; set_project 1 "p2" ;; n2 <- name 4 ;; ret (n1, n2))
    (example_cluster_heap (mkCluster BaseCluster "c1" 2 None None None None))
  = (Ok ("projects/p1/instances/i1/clusters/c1",
         "projects/p2/instances/i1/clusters/c1"),
     <[1 := OClient (mkClient "p2")]>
       (example_cluster_heap (mkCluster BaseCluster "c1" 2 None None None None))).
Proof.
  apply (C7_name_not_cached 4 _ (mkCluster BaseCluster "c1" 2 None None None None)
           (mkInstance "i1" 1) (mkClient "p1") "p2"); reflexivity.
Defined.

(** ** The round trip through the wire format *)

(** C5, as stated, fails: a [location_id] with a slash comes back as its
    last segment only; the attributes of a cluster built with the
    defaults, which are [None], come back as a string and as integers;
    and for a node count outside the range of the field [_to_pb] raises
    and there is no payload to copy back. *)
Lemma C5_roundtrip_counterexample :
  (attr location_id 4 (example_cluster_heap cluster_with_slash)
   = Some (Some "us/east1-b")
   /\ attr location_id 4
        (snd (roundtrip 4 (example_cluster_heap cluster_with_slash)))
      = Some (Some "east1-b"))
  /\ (attr location_id 4 (example_cluster_heap cluster_with_defaults)
      = Some None
      /\ attr location_id 4
           (snd (roundtrip 4 (example_cluster_heap cluster_with_defaults)))
         <> Some None)
  /\ (attr serve_nodes 4 (example_cluster_heap cluster_with_defaults)
      = Some None
      /\ attr serve_nodes 4
           (snd (roundtrip 4 (example_cluster_heap cluster_with_defaults)))
         <> Some None)
  /\ (attr default_storage_type 4 (example_cluster_heap cluster_with_defaults)
      = Some None
      /\ attr default_storage_type 4
           (snd (roundtrip 4 (example_cluster_heap cluster_with_defaults)))
         <> Some None)
  /\ (exists args,
        fst (roundtrip 4 (example_cluster_heap cluster_out_of_range))
        = Raise (ValueError args)).
Proof.
  repeat split; try (vm_compute; reflexivity); try (vm_compute; discriminate).
  eexists. vm_compute. reflexivity.
Qed.

(** C5, amended. For a cluster object whose [serve_nodes] and
    [default_storage_type], where they are set, are within the range of
    the message fields, [_to_pb] returns a new payload that holds the
    location path, the node count and the storage type, with the name
    and the state at their defaults; copying that payload back onto the
    object returns, and afterwards [location_id] is as it was when it
    was set and had no slash, [serve_nodes] is as it was when it was
    set, and [default_storage_type] is as it was when it was set, each
    on its own condition. *)
Theorem C5_roundtrip (self : loc) (h : heap) (c : Cluster) (inst : Instance)
    (client : Client) :
  h !! self = Some (OCluster c) -> h !! _instance c = Some (OInstance inst) ->
  h !! _client inst = Some (OClient client) ->
  sendable (serve_nodes c) = true ->
  sendable (default_storage_type c) = true ->
  (exists cluster_pb,
     h !! cluster_pb = None
     /\ _to_pb self h =
        (Ok cluster_pb,
         <[cluster_pb := OPb
             {| instance_pb2.name := "";
                instance_pb2.location :=
                  location_path (project client) (location_id c);
                instance_pb2.serve_nodes := default 0%Z (serve_nodes c);
                instance_pb2.default_storage_type :=
                  default 0%Z (default_storage_type c);
                instance_pb2.state := 0 |}]> h))
  /\ fst (roundtrip self h) = Ok tt
  /\ (forall l,
        location_id c = Some l -> str_forall (in_class not_slash) l = true ->
        attr location_id self (snd (roundtrip self h)) = Some (Some l))
  /\ (forall n,
        serve_nodes c = Some n ->
        attr serve_nodes self (snd (roundtrip self h)) = Some (Some n))
  /\ (forall t,
        default_storage_type c = Some t ->
        attr default_storage_type self (snd (roundtrip self h))
        = Some (Some t)).
Proof.
  intros Hc Hinst Hclient Hn Ht.
  pose proof (_to_pb_Ok self h c inst client Hc Hinst Hclient Hn Ht) as Hpb.
  assert (Hne : fresh (dom h) <> self).
  { intros Heq. pose proof (fresh_lookup h) as Hf. rewrite Heq in Hf. congruence. }
  split.
  { exists (fresh (dom h)). split; [apply fresh_lookup | exact Hpb]. }
  unfold roundtrip. erewrite bind_Ok by exact Hpb.
  erewrite _update_from_pb_Ok;
    [| rewrite lookup_insert_ne by assumption; eassumption
     | apply lookup_insert_eq].
  cbn [fst snd]. unfold attr. rewrite !lookup_insert_eq.
  cbn [location_id serve_nodes default_storage_type instance_pb2.location
       instance_pb2.serve_nodes instance_pb2.default_storage_type].
  split; [reflexivity | split; [|split]].
  - intros l Hl Hfree. do 2 f_equal. rewrite Hl. unfold location_path, py_str.
    replace ("projects/" ++ project client ++ "/locations/" ++ l)
      with (("projects/" ++ project client ++ "/locations") ++ "/" ++ l)
      by now rewrite !append_assoc.
    now apply last_segment_app.
  - now intros n ->.
  - now intros t ->.
Qed.

Lemma C5_roundtrip_witness :
  fst (roundtrip 4
         (example_cluster_heap
            (mkCluster BaseCluster "c1" 2 (Some "us-east1-b") (Some 3%Z)
               None None))) = Ok tt
  /\ attr location_id 4
       (snd (roundtrip 4
               (example_cluster_heap
                  (mkCluster BaseCluster "c1" 2 (Some "us-east1-b") (Some 3%Z)
                     None None)))) = Some (Some "us-east1-b")
  /\ attr serve_nodes 4
       (snd (roundtrip 4
               (example_cluster_heap
                  (mkCluster BaseCluster "c1" 2 (Some "us-east1-b") (Some 3%Z)
                     None None)))) = Some (Some 3%Z).
Proof.
  destruct (C5_roundtrip 4
              (example_cluster_heap
                 (mkCluster BaseCluster "c1" 2 (Some "us-east1-b") (Some 3%Z)
                    None None))
              (mkCluster BaseCluster "c1" 2 (Some "us-east1-b") (Some 3%Z)
                 None None)
              (mkInstance "i1" 1) (mkClient "p1"))
    as (_ & H1 & H2 & H3 & _); [reflexivity.. |].
  split; [exact H1 | split].
  - apply H2; reflexivity.
  - apply H3; reflexivity.
Defined.


(** * Further properties of the module *)

(** ** Which names [_CLUSTER_NAME_RE] accepts *)

Lemma append_inj_tail (s t : string) (a b : ascii) :
  s ++ String a "" = t ++ String b "" -> s = t /\ a = b.
Proof.
  revert t. induction s as [|c s IH]; intros [|d t]; simpl; intros E.
  - now injection E as ->.
  - injection E as _ E. destruct t; discriminate.
  - injection E as _ E. destruct s; discriminate.
  - injection E as -> E. destruct (IH t E) as [-> ->]. auto.
Qed.

Lemma is_cluster_id_snoc (c : string) (a : ascii) :
  is_cluster_id (c ++ String a "") = true <->
  (is_cluster_id c = true /\ in_class id_char a = true)
  \/ (c = "" /\ in_class lower a = true).
Proof.
  destruct c as [|c0 c]; simpl.
  - rewrite andb_true_r. split; [auto |]. intros [[? _]|[_ ?]]; [discriminate | auto].
  - rewrite str_forall_app. simpl. rewrite andb_true_r, andb_assoc, andb_true_iff.
    split; [auto |]. intros [?|[? _]]; [auto | discriminate].
Qed.

Lemma newline_not_id_char : in_class id_char "010" = false.
Proof. reflexivity. Qed.

Lemma cluster_id_no_newline (c d : string) :
  is_cluster_id (c ++ newline ++ d) = false.
Proof.
  destruct c as [|c0 c]; [reflexivity |].
  change (is_cluster_id (String c0 c ++ newline ++ d))
    with (in_class lower c0
          && str_forall (in_class id_char) (c ++ String "010" d)).
  rewrite str_forall_app. cbn [str_forall]. rewrite newline_not_id_char.
  now rewrite andb_false_r, andb_false_r.
Qed.

(** X1. The name check accepts a string, with groups [p], [i] and [c],
    exactly when [p] and [i] are non-empty and free of slashes, [c] is a
    lowercase letter followed by lowercase letters, digits or hyphens,
    and the string is [projects/p/instances/i/clusters/c], alone or
    followed by one newline. *)
Theorem X1_accepted_names (s p i c : string) :
  parseResourceName s = Some (p, i, c) <->
  segment p = true /\ segment i = true /\ is_cluster_id c = true
  /\ (s = cluster_path p i c \/ s = cluster_path p i c ++ newline).
Proof. apply parseResourceName_Some. Qed.

(** X2. An accepted name is refused once any character is put in front
    of it or any further [/segment] behind it. *)
Theorem X2_anchored (s : string) (r : string * string * string)
    (a : ascii) (extra : string) :
  parseResourceName s = Some r ->
  parseResourceName (String a s) = None
  /\ parseResourceName (s ++ "/" ++ extra) = None.
Proof.
  intros H. split.
  - now apply leading_character_rejected with (r := r).
  - now apply trailing_segment_rejected with (r := r).
Qed.

Lemma X2_anchored_witness :
  parseResourceName example_name = Some ("p1", "i1", "c1")
  /\ parseResourceName (String " " example_name) = None
  /\ parseResourceName (example_name ++ "/" ++ "extra") = None.
Proof.
  split; [reflexivity |].
  apply (X2_anchored example_name ("p1", "i1", "c1") " " "extra"). reflexivity.
Defined.

(** X3. One more character behind an accepted name that does not end in
    a newline: a lowercase letter, digit or hyphen lengthens the cluster
    id, a newline is ignored, any other character makes the name
    refused. Behind an accepted name that ends in a newline every
    character makes it refused. *)
Theorem X3_one_more_character (p i c : string) (a : ascii) :
  parseResourceName (cluster_path p i c) = Some (p, i, c) ->
  parseResourceName (cluster_path p i c ++ String a "") =
  (if in_class id_char a then Some (p, i, c ++ String a "")
   else if Ascii.eqb a "010" then Some (p, i, c)
   else None)
  /\ parseResourceName ((cluster_path p i c ++ newline) ++ String a "") = None.
Proof.
  intros (Hp & Hi & Hc & _)%parseResourceName_Some. split.
  - destruct (in_class id_char a) eqn:Ha.
    + apply parseResourceName_Some. repeat split; try assumption.
      * apply is_cluster_id_snoc. auto.
      * left. apply cluster_path_app.
    + destruct (Ascii.eqb_spec a "010") as [->|Hnl].
      * apply parseResourceName_Some. auto 6.
      * rewrite cluster_path_app.
        destruct (parseResourceName _) as [[[p' i'] c']|] eqn:E; [|reflexivity].
        apply parseResourceName_cluster_path in E
          as (_ & _ & _ & _ & Hc' & [E|E]).
        -- rewrite <- E in Hc'. apply is_cluster_id_snoc in Hc' as [[_ ?]|[-> ?]];
             [congruence | discriminate].
        -- apply append_inj_tail in E as [_ ->]. contradiction.
  - rewrite append_assoc, cluster_path_app.
    destruct (parseResourceName _) as [[[p' i'] c']|] eqn:E; [|reflexivity].
    apply parseResourceName_cluster_path in E as (_ & _ & _ & _ & Hc' & [E|E]).
    + rewrite <- E in Hc'. now rewrite cluster_id_no_newline in Hc'.
    + rewrite <- append_assoc in E. apply append_inj_tail in E as [E _].
      rewrite <- E, <- (append_nil_r newline) in Hc'.
      now rewrite cluster_id_no_newline in Hc'.
Qed.

Lemma X3_one_more_character_witness :
  parseResourceName (cluster_path "p1" "i1" "c1" ++ "-")
  = Some ("p1", "i1", "c1-")
  /\ parseResourceName ((cluster_path "p1" "i1" "c1" ++ newline) ++ "-") = None.
Proof.
  apply (X3_one_more_character "p1" "i1" "c1" "-"). reflexivity.
Defined.

(** X4. A name [projects/p/instances/i/clusters/c] is refused whenever
    [c] is not a lowercase letter followed by lowercase letters, digits
    or hyphens, unless [c] is such an id followed by one newline;
    nothing is asked of [p] and [i] here. *)
Theorem X4_cluster_id_checked (p i c : string) :
  is_cluster_id c = false ->
  (forall c', is_cluster_id c' = true -> c <> c' ++ newline) ->
  parseResourceName (cluster_path p i c) = None.
Proof. apply malformed_cluster_id_rejected. Qed.

Lemma X4_cluster_id_checked_witness :
  parseResourceName (cluster_path "p1" "i1" "c_1") = None.
Proof.
  apply (X4_cluster_id_checked "p1" "i1" "c_1"); [reflexivity |].
  intros c' _ E.
  destruct c' as [|x [|y [|z [|w c']]]]; simpl in E; discriminate E.
Defined.

(** ** What the methods read and write *)

Lemma bind_same_heap {A B : Type} (m : M A) (k : A -> M B) (h : heap) :
  snd (m h) = h -> (forall a, snd (k a h) = h) -> snd (bind m k h) = h.
Proof.
  intros Hm Hk. unfold bind. destruct (m h) as [[a|e] h'] eqn:E; simpl in *.
  - subst h'. apply Hk.
  - assumption.
Qed.

(** X5. The accessors write nothing: whatever the references point to,
    and whether they return or raise, the store after [name], [state]
    and [__eq__] is the store before. *)
Theorem X5_accessors_read_only (self other : loc) (h : heap) :
  snd (name self h) = h
  /\ snd (state self h) = h
  /\ snd (__eq__ self other h) = h.
Proof.
  split; [|split].
  - unfold name. apply bind_same_heap; [apply read_cluster_heap |]. intros c.
    apply bind_same_heap; [apply read_instance_heap |]. intros inst.
    apply bind_same_heap; [apply read_client_heap |]. reflexivity.
  - unfold state. apply bind_same_heap; [apply read_cluster_heap |]. reflexivity.
  - unfold __eq__. apply bind_same_heap; [apply read_cluster_heap |]. intros c.
    apply bind_same_heap.
    { unfold isinstance. now destruct (h !! other) as [[]|]. }
    intros b. destruct (negb b); [reflexivity |].
    apply bind_same_heap; [apply read_cluster_heap |]. intros o.
    destruct (String.eqb _ _); [|reflexivity].
    apply bind_same_heap; reflexivity.
Qed.

(** X6. [_to_pb] builds its message beside the objects of the store: on
    every store and for every reference, each object that was in the
    store is the same after the call, the cluster itself included. *)
Theorem X6__to_pb_keeps_store (self l : loc) (h : heap) (o : pyobj) :
  h !! l = Some o -> snd (_to_pb self h) !! l = Some o.
Proof.
  intros Hl.
  assert (Hf : frame_at (eq (fresh (dom h))) (_to_pb self) h).
  { unfold _to_pb.
    apply frame_at_bind; [apply frame_at_same, read_cluster_heap |].
    intros c h' [-> _]%read_cluster_inv.
    apply frame_at_bind; [apply frame_at_same, read_instance_heap |].
    intros inst h' [-> _]%read_instance_inv.
    apply frame_at_bind; [apply frame_at_same, read_client_heap |].
    intros client h' [-> _]%read_client_inv.
    intros l' Hl'. cbv zeta.
    destruct (instance_pb2.Cluster_init _ _ _) as [v|cluster_pb];
      [reflexivity |].
    simpl. apply lookup_insert_ne. congruence. }
  rewrite <- Hl. apply Hf.
  intros Heq. rewrite <- Heq, fresh_lookup in Hl. discriminate.
Qed.

Lemma X6__to_pb_keeps_store_witness :
  snd (_to_pb 4 (example_cluster_heap cluster_with_defaults)) !! 4
  = Some (OCluster cluster_with_defaults).
Proof.
  apply (X6__to_pb_keeps_store 4 4 (example_cluster_heap cluster_with_defaults)).
  reflexivity.
Defined.

(** X7. A refresh forgets the refresh before it: copying one payload
    and then another onto a cluster leaves the store that copying the
    second alone leaves. In particular copying a payload twice is
    copying it once. *)
Theorem X7__update_from_pb_last_wins (self pb1 pb2 : loc) (h : heap)
    (c : Cluster) (p1 p2 : instance_pb2.Cluster) :
  h !! self = Some (OCluster c) ->
  h !! pb1 = Some (OPb p1) -> h !! pb2 = Some (OPb p2) ->
  (_update_from_pb self pb1 ;; _update_from_pb self pb2) h
  = _update_from_pb self pb2 h.
Proof.
  intros Hc H1 H2. assert (Hne : self <> pb2) by congruence.
  erewrite bind_Ok by (apply _update_from_pb_Ok; eassumption).
  erewrite _update_from_pb_Ok;
    [| apply lookup_insert_eq
     | rewrite lookup_insert_ne by assumption; eassumption].
  rewrite insert_insert_eq.
  now rewrite (_update_from_pb_Ok self pb2 h c p2 Hc H2).
Qed.

Lemma X7__update_from_pb_last_wins_witness :
  (_update_from_pb 4 3 ;; _update_from_pb 4 3)
    (example_cluster_heap cluster_with_defaults)
  = _update_from_pb 4 3 (example_cluster_heap cluster_with_defaults).
Proof.
  apply (X7__update_from_pb_last_wins 4 3 3 _ cluster_with_defaults
           (example_pb example_name) (example_pb example_name)); reflexivity.
Defined.

(** X8. The refresh never fails on a cluster and a payload, whatever the
    location text: an empty location and a location that ends in a slash
    give the empty location id, and a location without a slash is taken
    whole. *)
Theorem X8__update_from_pb_location_edges (self cluster_pb : loc) (h : heap)
    (c : Cluster) (pb : instance_pb2.Cluster) :
  h !! self = Some (OCluster c) -> h !! cluster_pb = Some (OPb pb) ->
  fst (_update_from_pb self cluster_pb h) = Ok tt
  /\ (instance_pb2.location pb = ""
      \/ (exists pre, instance_pb2.location pb = pre ++ "/") ->
      attr location_id self (snd (_update_from_pb self cluster_pb h))
      = Some (Some ""))
  /\ (count_slash (instance_pb2.location pb) = 0 ->
      attr location_id self (snd (_update_from_pb self cluster_pb h))
      = Some (Some (instance_pb2.location pb))).
Proof.
  intros Hc Hpb. rewrite (_update_from_pb_Ok self cluster_pb h c pb Hc Hpb).
  cbn [fst snd]. unfold attr. rewrite lookup_insert_eq. cbn [location_id].
  split; [reflexivity | split].
  - intros [->|[pre ->]]; [reflexivity |]. do 2 f_equal.
    now apply (last_segment_app pre "").
  - intros H%count_slash_zero. do 2 f_equal.
    now apply last_segment_slash_free.
Qed.

Lemma X8__update_from_pb_location_edges_witness :
  fst (_update_from_pb 4 3
         (<[3 := OPb (instance_pb2.mkCluster example_name
                        "projects/p1/locations/" 3 1 1)]>
            (example_cluster_heap cluster_with_slash))) = Ok tt
  /\ attr location_id 4
       (snd (_update_from_pb 4 3
               (<[3 := OPb (instance_pb2.mkCluster example_name
                              "projects/p1/locations/" 3 1 1)]>
                  (example_cluster_heap cluster_with_slash))))
     = Some (Some "").
Proof.
  destruct (X8__update_from_pb_location_edges 4 3
              (<[3 := OPb (instance_pb2.mkCluster example_name
                             "projects/p1/locations/" 3 1 1)]>
                 (example_cluster_heap cluster_with_slash))
              cluster_with_slash
              (instance_pb2.mkCluster example_name "projects/p1/locations/" 3 1 1))
    as (H1 & H2 & _); [reflexivity | reflexivity |].
  split; [exact H1 |]. apply H2. right. now exists "projects/p1/locations".
Defined.

(** ** [from_pb] with the other methods *)

(** X9. On a payload and an instance in the store, [from_pb] returns
    exactly when the payload name is accepted with the project of the
    instance's client as its project group and the id of the instance as
    its instance group. *)
Theorem X9_from_pb_returns_iff (cls : pyclass) (cluster_pb instance : loc)
    (h : heap) (pb : instance_pb2.Cluster) (inst : Instance) (client : Client) :
  h !! cluster_pb = Some (OPb pb) -> h !! instance = Some (OInstance inst) ->
  h !! _client inst = Some (OClient client) ->
  (exists result h', from_pb cls cluster_pb instance h = (Ok result, h'))
  <-> (exists c, parseResourceName (instance_pb2.name pb)
                 = Some (project client, instance_id inst, c)).
Proof.
  intros Hpb Hinst Hclient. split.
  - intros (result & h' & E).
    destruct (parseResourceName (instance_pb2.name pb)) as [[[p i] c]|] eqn:Hparse.
    + destruct (String.eqb_spec i (instance_id inst)) as [->|Hi].
      * destruct (String.eqb_spec p (project client)) as [->|Hp]; [eauto |].
        rewrite (from_pb_project_mismatch cls _ _ _ _ _ _ _ _ _
                   Hpb Hinst Hclient Hparse eq_refl Hp) in E. discriminate.
      * rewrite (from_pb_instance_mismatch cls _ _ _ _ _ _ _ _
                   Hpb Hinst Hparse Hi) in E. discriminate.
    + rewrite (from_pb_no_match cls _ instance _ _ Hpb Hparse) in E. discriminate.
  - intros [c Hparse]. do 2 eexists.
    exact (from_pb_Ok cls _ _ _ _ _ _ _ Hpb Hinst Hclient Hparse).
Qed.

Lemma X9_from_pb_returns_iff_witness :
  exists result h',
    from_pb BaseCluster 3 2 (example_heap example_name) = (Ok result, h').
Proof.
  apply (X9_from_pb_returns_iff BaseCluster 3 2 (example_heap example_name)
           (example_pb example_name) (mkInstance "i1" 1) (mkClient "p1"));
    [reflexivity | reflexivity | reflexivity |].
  exists "c1". reflexivity.
Defined.

(** The objects [from_pb] was given are where they were in the store it
    returns. *)
Lemma from_pb_store (cls : pyclass) (cluster_pb instance : loc)
    (h : heap) (pb : instance_pb2.Cluster) (inst : Instance) (client : Client)
    (c : string) :
  h !! cluster_pb = Some (OPb pb) -> h !! instance = Some (OInstance inst) ->
  h !! _client inst = Some (OClient client) ->
  parseResourceName (instance_pb2.name pb)
  = Some (project client, instance_id inst, c) ->
  exists result h',
    from_pb cls cluster_pb instance h = (Ok result, h')
    /\ h !! result = None
    /\ h' !! result =
       Some (OCluster
               {| ob_type := cls; cluster_id := c; _instance := instance;
                  location_id := Some (last_segment (instance_pb2.location pb));
                  serve_nodes := Some (instance_pb2.serve_nodes pb);
                  default_storage_type :=
                    Some (instance_pb2.default_storage_type pb);
                  _state := Some (instance_pb2.state pb) |})
    /\ h' !! cluster_pb = Some (OPb pb)
    /\ h' !! instance = Some (OInstance inst)
    /\ h' !! _client inst = Some (OClient client)
    /\ dom h' = {[result]} ∪ dom h.
Proof.
  intros Hpb Hinst Hclient Hparse. do 2 eexists.
  split; [exact (from_pb_Ok cls _ _ _ _ _ _ _ Hpb Hinst Hclient Hparse) |].
  pose proof (fresh_lookup h) as Hf.
  split; [assumption |]. split; [apply lookup_insert_eq |].
  repeat split; try (rewrite lookup_insert_ne by congruence; assumption).
  apply dom_insert_L.
Qed.

(** X10. The name of the cluster [from_pb] returns is the canonical path
    of the three groups, and the payload name is that path or that path
    and a newline. *)
Theorem X10_from_pb_then_name (cls : pyclass) (cluster_pb instance : loc)
    (h : heap) (pb : instance_pb2.Cluster) (inst : Instance) (client : Client)
    (c : string) :
  h !! cluster_pb = Some (OPb pb) -> h !! instance = Some (OInstance inst) ->
  h !! _client inst = Some (OClient client) ->
  parseResourceName (instance_pb2.name pb)
  = Some (project client, instance_id inst, c) ->
  fst ((result <- from_pb cls cluster_pb instance ;; name result) h)
  = Ok (cluster_path (project client) (instance_id inst) c)
  /\ (instance_pb2.name pb = cluster_path (project client) (instance_id inst) c
      \/ instance_pb2.name pb
         = cluster_path (project client) (instance_id inst) c ++ newline).
Proof.
  intros Hpb Hinst Hclient Hparse.
  destruct (from_pb_store cls _ _ _ _ _ _ _ Hpb Hinst Hclient Hparse)
    as (result & h' & E & _ & Hr & _ & Hi' & Hc' & _).
  split.
  - erewrite bind_Ok by exact E.
    now rewrite (name_Ok result h' _ inst client Hr Hi' Hc').
  - now apply parseResourceName_Some in Hparse as (_ & _ & _ & ?).
Qed.

Lemma X10_from_pb_then_name_witness :
  fst ((result <- from_pb BaseCluster 3 2 ;; name result)
         (example_heap (example_name ++ newline)))
  = Ok example_name.
Proof.
  apply (X10_from_pb_then_name BaseCluster 3 2
           (example_heap (example_name ++ newline))
           (example_pb (example_name ++ newline))
           (mkInstance "i1" 1) (mkClient "p1") "c1"); reflexivity.
Defined.

(** X11. The state of the cluster [from_pb] returns is the state of the
    payload. *)
Theorem X11_from_pb_then_state (cls : pyclass) (cluster_pb instance : loc)
    (h : heap) (pb : instance_pb2.Cluster) (inst : Instance) (client : Client)
    (c : string) :
  h !! cluster_pb = Some (OPb pb) -> h !! instance = Some (OInstance inst) ->
  h !! _client inst = Some (OClient client) ->
  parseResourceName (instance_pb2.name pb)
  = Some (project client, instance_id inst, c) ->
  fst ((result <- from_pb cls cluster_pb instance ;; state result) h)
  = Ok (Some (instance_pb2.state pb)).
Proof.
  intros Hpb Hinst Hclient Hparse.
  destruct (from_pb_store cls _ _ _ _ _ _ _ Hpb Hinst Hclient Hparse)
    as (result & h' & E & _ & Hr & _).
  erewrite bind_Ok by exact E. unfold state.
  now erewrite bind_Ok by (apply read_cluster_Ok; eassumption).
Qed.

Lemma X11_from_pb_then_state_witness :
  fst ((result <- from_pb BaseCluster 3 2 ;; state result)
         (example_heap example_name))
  = Ok (Some 1%Z).
Proof.
  apply (X11_from_pb_then_state BaseCluster 3 2 (example_heap example_name)
           (example_pb example_name) (mkInstance "i1" 1) (mkClient "p1") "c1");
    reflexivity.
Defined.

(** X12. Two calls of [from_pb] on the same payload and instance return
    two different objects, and [__eq__] holds of them. *)
Theorem X12_from_pb_twice_equal (cls : pyclass) (cluster_pb instance : loc)
    (h : heap) (pb : instance_pb2.Cluster) (inst : Instance) (client : Client)
    (c : string) :
  h !! cluster_pb = Some (OPb pb) -> h !! instance = Some (OInstance inst) ->
  h !! _client inst = Some (OClient client) ->
  parseResourceName (instance_pb2.name pb)
  = Some (project client, instance_id inst, c) ->
  fst ((r1 <- from_pb cls cluster_pb instance ;;
        r2 <- from_pb cls cluster_pb instance ;;
        e <- __eq__ r1 r2 ;;
        ret (Nat.eqb r1 r2, e)) h)
  = Ok (false, PyBool true).
Proof.
  intros Hpb Hinst Hclient Hparse.
  destruct (from_pb_store cls _ _ _ _ _ _ _ Hpb Hinst Hclient Hparse)
    as (r1 & h1 & E1 & _ & Hr1 & Hpb1 & Hinst1 & Hclient1 & _).
  destruct (from_pb_store cls _ _ _ _ _ _ _ Hpb1 Hinst1 Hclient1 Hparse)
    as (r2 & h2 & E2 & Hfresh & Hr2 & _).
  assert (Hne : r1 <> r2) by congruence.
  erewrite bind_Ok by exact E1. erewrite bind_Ok by exact E2.
  assert (Hr1' : h2 !! r1 = h1 !! r1).
  { pose proof (from_pb_frame_at cls cluster_pb instance h1 r1) as Hf.
    rewrite E2 in Hf. simpl in Hf. apply Hf. intros Heq.
    pose proof (from_pb_Ok cls _ _ _ _ _ _ _ Hpb1 Hinst1 Hclient1 Hparse) as E2'.
    rewrite E2 in E2'. injection E2' as -> _. congruence. }
  rewrite Hr1 in Hr1'.
  erewrite bind_Ok
    by (eapply __eq___same_identity; [exact Hr1' | exact Hr2 | reflexivity..]).
  unfold ret. cbn [fst]. apply Nat.eqb_neq in Hne. now rewrite Hne.
Qed.

Lemma X12_from_pb_twice_equal_witness :
  fst ((r1 <- from_pb BaseCluster 3 2 ;;
        r2 <- from_pb BaseCluster 3 2 ;;
        e <- __eq__ r1 r2 ;;
        ret (Nat.eqb r1 r2, e)) (example_heap example_name))
  = Ok (false, PyBool true).
Proof.
  apply (X12_from_pb_twice_equal BaseCluster 3 2 (example_heap example_name)
           (example_pb example_name) (mkInstance "i1" 1) (mkClient "p1") "c1");
    reflexivity.
Defined.

(** X13. From a payload to a cluster and back to a payload: the message
    [_to_pb] builds for the cluster [from_pb] returned is a new object
    with the node count and the storage type of the first payload, the
    location path of the client's project and of the last segment of the
    first location, and the name and the state at their defaults. When
    the first location is such a path with a slash-free location id, the
    location is the same. *)
Theorem X13_payload_to_cluster_to_payload (cls : pyclass)
    (cluster_pb instance : loc) (h : heap) (pb : instance_pb2.Cluster)
    (inst : Instance) (client : Client) (c : string) :
  h !! cluster_pb = Some (OPb pb) -> h !! instance = Some (OInstance inst) ->
  h !! _client inst = Some (OClient client) ->
  parseResourceName (instance_pb2.name pb)
  = Some (project client, instance_id inst, c) ->
  instance_pb2.int32 (instance_pb2.serve_nodes pb) = true ->
  instance_pb2.int32 (instance_pb2.default_storage_type pb) = true ->
  exists pb',
    fst ((result <- from_pb cls cluster_pb instance ;; _to_pb result) h) = Ok pb'
    /\ h !! pb' = None
    /\ payload_at pb'
         (snd ((result <- from_pb cls cluster_pb instance ;; _to_pb result) h))
       = Some {| instance_pb2.name := "";
                 instance_pb2.location :=
                   "projects/" ++ project client ++ "/locations/"
                   ++ last_segment (instance_pb2.location pb);
                 instance_pb2.serve_nodes := instance_pb2.serve_nodes pb;
                 instance_pb2.default_storage_type :=
                   instance_pb2.default_storage_type pb;
                 instance_pb2.state := 0 |}
    /\ (forall l,
          count_slash l = 0 ->
          instance_pb2.location pb
          = "projects/" ++ project client ++ "/locations/" ++ l ->
          "projects/" ++ project client ++ "/locations/"
          ++ last_segment (instance_pb2.location pb)
          = instance_pb2.location pb).
Proof.
  intros Hpb Hinst Hclient Hparse Hn Ht.
  destruct (from_pb_store cls _ _ _ _ _ _ _ Hpb Hinst Hclient Hparse)
    as (result & h' & E & _ & Hr & _ & Hi' & Hc' & Hdom).
  exists (fresh (dom h')).
  erewrite bind_Ok by exact E.
  rewrite (_to_pb_Ok result h' _ inst client Hr Hi' Hc' Hn Ht).
  cbn [fst snd]. split; [reflexivity |]. split; [|split].
  - apply not_elem_of_dom. intros Hin.
    apply (is_fresh (dom h')). rewrite Hdom in Hin |- *.
    now apply elem_of_union_r.
  - unfold payload_at. now rewrite lookup_insert_eq.
  - intros l Hl%count_slash_zero E'. rewrite E' at 1.
    replace ("projects/" ++ project client ++ "/locations/" ++ l)
      with (("projects/" ++ project client ++ "/locations") ++ "/" ++ l)
      by now rewrite !append_assoc.
    rewrite (last_segment_app _ l Hl). now rewrite E'.
Qed.

Lemma X13_payload_to_cluster_to_payload_witness :
  exists pb',
    fst ((result <- from_pb BaseCluster 3 2 ;; _to_pb result)
           (example_heap example_name)) = Ok pb'
    /\ example_heap example_name !! pb' = None
    /\ payload_at pb'
         (snd ((result <- from_pb BaseCluster 3 2 ;; _to_pb result)
                 (example_heap example_name)))
       = Some (instance_pb2.mkCluster "" "projects/p1/locations/us-east1-b" 3 1 0).
Proof.
  destruct (X13_payload_to_cluster_to_payload BaseCluster 3 2
              (example_heap example_name) (example_pb example_name)
              (mkInstance "i1" 1) (mkClient "p1") "c1")
    as (pb' & H1 & H2 & H3 & _); [reflexivity..|].
  exists pb'. split; [exact H1 | split; [exact H2 | exact H3]].
Defined.

(** X14. What [name] returns passes the name check of [from_pb], with
    the cluster's own parts as the groups, exactly when the project and
    the instance id are non-empty and free of slashes and the cluster id
    is a lowercase letter followed by lowercase letters, digits or
    hyphens: the constructor checks none of this. *)
Theorem X14_name_passes_check_iff (self : loc) (h : heap) (c : Cluster)
    (inst : Instance) (client : Client) :
  h !! self = Some (OCluster c) -> h !! _instance c = Some (OInstance inst) ->
  h !! _client inst = Some (OClient client) ->
  exists n,
    name self h = (Ok n, h)
    /\ (parseResourceName n
        = Some (project client, instance_id inst, cluster_id c)
        <-> segment (project client) = true
            /\ segment (instance_id inst) = true
            /\ is_cluster_id (cluster_id c) = true).
Proof.
  intros Hc Hinst Hclient. eexists.
  split; [exact (name_Ok self h c inst client Hc Hinst Hclient) |].
  rewrite parseResourceName_Some. split.
  - intros (? & ? & ? & _). auto.
  - intros (? & ? & ?). auto 6.
Qed.

Lemma X14_name_passes_check_iff_witness :
  exists n,
    name 4 (example_cluster_heap
              (mkCluster BaseCluster "Not-An-Id" 2 None None None None))
    = (Ok n, example_cluster_heap
               (mkCluster BaseCluster "Not-An-Id" 2 None None None None))
    /\ (parseResourceName n = Some ("p1", "i1", "Not-An-Id")
        <-> segment "p1" = true /\ segment "i1" = true
            /\ is_cluster_id "Not-An-Id" = true).
Proof.
  apply (X14_name_passes_check_iff 4 _
           (mkCluster BaseCluster "Not-An-Id" 2 None None None None)
           (mkInstance "i1" 1) (mkClient "p1")); reflexivity.
Defined.

(** ** [__eq__], [==] and [__ne__] *)

Lemma pyclass_eqb_eq (c d : pyclass) : pyclass_eqb c d = true <-> c = d.
Proof.
  revert d. induction c as [|n b IH]; intros [|n' b']; simpl;
    try (split; [discriminate | discriminate]); [tauto |].
  rewrite andb_true_iff, String.eqb_eq, IH.
  split; [intros [-> ->]; reflexivity | intros [= -> ->]; auto].
Qed.

Lemma issubclass_depth (c d : pyclass) :
  issubclass c d = true -> class_depth d <= class_depth c.
Proof.
  induction c as [|n b IH]; cbn [issubclass].
  - rewrite orb_false_r. intros <-%pyclass_eqb_eq. reflexivity.
  - intros [<-%pyclass_eqb_eq | H%IH]%orb_true_iff; simpl; lia.
Qed.

Lemma issubclass_same_depth (c d : pyclass) :
  issubclass c d = true -> class_depth c <= class_depth d -> c = d.
Proof.
  destruct c as [|n b]; cbn [issubclass].
  - rewrite orb_false_r. now intros <-%pyclass_eqb_eq.
  - intros [<-%pyclass_eqb_eq | H%issubclass_depth]%orb_true_iff;
      [reflexivity | simpl; lia].
Qed.

(** Two classes that are subclasses of each other are one class. *)
Lemma issubclass_antisym (c d : pyclass) :
  issubclass c d = true -> issubclass d c = true -> c = d.
Proof.
  intros H1 H2. apply issubclass_same_depth; [assumption |].
  now apply issubclass_depth.
Qed.

Lemma instance_eqb_refl (h : heap) (a : loc) : instance_eqb h a a = true.
Proof. unfold instance_eqb, Instance__eq__. simpl. now rewrite Nat.eqb_refl. Qed.

Lemma instance_eqb_sym (h : heap) (a b : loc) :
  instance_eqb h a b = instance_eqb h b a.
Proof.
  unfold instance_eqb, Instance__eq__. simpl. rewrite (Nat.eqb_sym a b).
  destruct (h !! a) as [[| x | |]|], (h !! b) as [[| y | |]|]; try reflexivity.
  now rewrite (String.eqb_sym (instance_id x)), (Nat.eqb_sym (_client x)).
Qed.

Lemma same_identity_sym (h : heap) (o c : Cluster) :
  same_identity h o c = same_identity h c o.
Proof.
  unfold same_identity.
  now rewrite String.eqb_sym, instance_eqb_sym.
Qed.

(** [__eq__] on two cluster objects, all cases. *)
Lemma __eq___clusters (self other : loc) (h : heap) (c o : Cluster) :
  h !! self = Some (OCluster c) -> h !! other = Some (OCluster o) ->
  __eq__ self other h =
  (Ok (if issubclass (ob_type o) (ob_type c)
       then PyBool (same_identity h o c) else NotImplemented), h).
Proof.
  intros Hc Ho. unfold __eq__.
  erewrite bind_Ok by (apply read_cluster_Ok; eassumption).
  unfold isinstance at 1. unfold bind at 1. rewrite Ho.
  destruct (issubclass (ob_type o) (ob_type c)); cbn [negb]; [|reflexivity].
  erewrite bind_Ok by (apply read_cluster_Ok; eassumption).
  unfold same_identity, instance_eqb.
  destruct (String.eqb _ _); [|reflexivity].
  reflexivity.
Qed.

Lemma __eq___not_instance (self other : loc) (h : heap) (c : Cluster) :
  h !! self = Some (OCluster c) ->
  (forall o, h !! other = Some (OCluster o) ->
             issubclass (ob_type o) (ob_type c) = false) ->
  __eq__ self other h = (Ok NotImplemented, h).
Proof.
  intros Hc Hno. unfold __eq__.
  erewrite bind_Ok by (apply read_cluster_Ok; eassumption).
  unfold isinstance at 1. unfold bind at 1.
  destruct (h !! other) as [[| | o |]|]; try reflexivity.
  now rewrite (Hno o eq_refl).
Qed.

Lemma cluster_class_Ok (l : loc) (h : heap) (c : Cluster) :
  h !! l = Some (OCluster c) -> cluster_class l h = (Ok (Some (ob_type c)), h).
Proof. unfold cluster_class. now intros ->. Qed.

Lemma reflected__eq___cluster (f : loc -> loc -> M pyeq) (v w : loc)
    (h : heap) (o : Cluster) :
  h !! w = Some (OCluster o) -> reflected__eq__ f v w h = __eq__ w v h.
Proof.
  intros Ho. unfold reflected__eq__.
  now erewrite bind_Ok by (apply cluster_class_Ok; eassumption).
Qed.

(** [v == w] on two cluster objects, all cases. *)
Lemma richcompare_eq_clusters (f : loc -> loc -> M pyeq) (self other : loc)
    (h : heap) (c o : Cluster) :
  h !! self = Some (OCluster c) -> h !! other = Some (OCluster o) ->
  richcompare_eq f self other h =
  (Ok (if issubclass (ob_type o) (ob_type c) then same_identity h o c
       else if issubclass (ob_type c) (ob_type o) then same_identity h c o
       else Nat.eqb self other), h).
Proof.
  intros Hc Ho. unfold richcompare_eq.
  erewrite bind_Ok by (apply read_cluster_Ok; eassumption).
  erewrite bind_Ok by (apply cluster_class_Ok; eassumption).
  pose proof (__eq___clusters self other h c o Hc Ho) as E1.
  pose proof (__eq___clusters other self h o c Ho Hc) as E2.
  rewrite <- (reflected__eq___cluster f self other h o Ho) in E2.
  destruct (issubclass (ob_type o) (ob_type c)) eqn:Hoc.
  - destruct (pyclass_eqb (ob_type o) (ob_type c)) eqn:Hsame; cbn [negb andb];
      rewrite ?Hoc; cbv iota.
    + now erewrite bind_Ok by exact E1.
    + destruct (issubclass (ob_type c) (ob_type o)) eqn:Hco.
      { apply (issubclass_antisym _ _ Hoc) in Hco.
        apply pyclass_eqb_eq in Hco. congruence. }
      rewrite (bind_Ok (reflected__eq__ f self other) _ _ _ _ E2). cbv beta iota.
      now erewrite bind_Ok by exact E1.
  - rewrite ?Hoc, andb_false_r. cbv iota.
    erewrite bind_Ok by exact E1. cbv beta iota.
    rewrite (bind_Ok (reflected__eq__ f self other) _ _ _ _ E2).
    now destruct (issubclass (ob_type c) (ob_type o)).
Qed.

(** X15. [__eq__] declines, with [NotImplemented], whenever the other
    object is not a cluster of the class of [self] or of a class derived
    from it, be it another kind of object or a cluster of an unrelated
    class; and it answers [False] for such a cluster with another
    cluster id, whatever the instances are. *)
Theorem X15___eq___declines_or_refuses (self other : loc) (h : heap)
    (c : Cluster) :
  h !! self = Some (OCluster c) ->
  ((forall o, h !! other = Some (OCluster o) ->
              issubclass (ob_type o) (ob_type c) = false) ->
   __eq__ self other h = (Ok NotImplemented, h))
  /\ (forall o, h !! other = Some (OCluster o) ->
                issubclass (ob_type o) (ob_type c) = true ->
                cluster_id o <> cluster_id c ->
                __eq__ self other h = (Ok (PyBool false), h)).
Proof.
  intros Hc. split.
  - now apply __eq___not_instance.
  - intros o Ho Hsub Hid. rewrite (__eq___clusters self other h c o Hc Ho), Hsub.
    unfold same_identity. apply String.eqb_neq in Hid. now rewrite Hid.
Qed.

Lemma X15___eq___declines_or_refuses_witness :
  __eq__ 4 2 (example_cluster_heap cluster_with_defaults)
  = (Ok NotImplemented, example_cluster_heap cluster_with_defaults).
Proof.
  apply (X15___eq___declines_or_refuses 4 2 _ cluster_with_defaults);
    [reflexivity |].
  intros o Ho. vm_compute in Ho. discriminate Ho.
Defined.

(** X16. [__eq__] is not symmetric across a class and a class derived
    from it, at any depth: between a cluster of a derived class and a
    cluster of a class it is derived from, with the same id and
    instance, the method of the derived one declines and the method of
    the other answers [True]. Between two clusters of one class it gives
    the same answer both ways. *)
Theorem X16___eq___across_classes (self other : loc) (h : heap)
    (c o : Cluster) :
  h !! self = Some (OCluster c) -> h !! other = Some (OCluster o) ->
  (issubclass (ob_type c) (ob_type o) = true -> ob_type c <> ob_type o ->
   cluster_id o = cluster_id c -> _instance o = _instance c ->
   __eq__ self other h = (Ok NotImplemented, h)
   /\ __eq__ other self h = (Ok (PyBool true), h))
  /\ (ob_type o = ob_type c -> __eq__ self other h = __eq__ other self h).
Proof.
  intros Hc Ho. split.
  - intros Hsub Hne Hid Hinst.
    rewrite (__eq___clusters self other h c o Hc Ho).
    rewrite (__eq___clusters other self h o c Ho Hc).
    rewrite Hsub. split.
    + destruct (issubclass (ob_type o) (ob_type c)) eqn:E; [|reflexivity].
      now destruct (Hne (issubclass_antisym _ _ Hsub E)).
    + rewrite same_identity_sym. unfold same_identity.
      now rewrite Hid, String.eqb_refl, Hinst, instance_eqb_refl.
  - intros Ht.
    rewrite (__eq___clusters self other h c o Hc Ho).
    rewrite (__eq___clusters other self h o c Ho Hc).
    now rewrite Ht, issubclass_refl, same_identity_sym.
Qed.

Lemma X16___eq___across_classes_witness :
  __eq__ 4 5
    (<[5 := OCluster cluster_with_defaults]>
       (example_cluster_heap
          (mkCluster (Subclass "Replica" (Subclass "Cluster" BaseCluster))
             "c1" 2 None None None None)))
  = (Ok NotImplemented,
     <[5 := OCluster cluster_with_defaults]>
       (example_cluster_heap
          (mkCluster (Subclass "Replica" (Subclass "Cluster" BaseCluster))
             "c1" 2 None None None None)))
  /\ __eq__ 5 4
       (<[5 := OCluster cluster_with_defaults]>
          (example_cluster_heap
             (mkCluster (Subclass "Replica" (Subclass "Cluster" BaseCluster))
                "c1" 2 None None None None)))
     = (Ok (PyBool true),
        <[5 := OCluster cluster_with_defaults]>
          (example_cluster_heap
             (mkCluster (Subclass "Replica" (Subclass "Cluster" BaseCluster))
                "c1" 2 None None None None))).
Proof.
  destruct (X16___eq___across_classes 4 5
              (<[5 := OCluster cluster_with_defaults]>
                 (example_cluster_heap
                    (mkCluster
                       (Subclass "Replica" (Subclass "Cluster" BaseCluster))
                       "c1" 2 None None None None)))
              (mkCluster (Subclass "Replica" (Subclass "Cluster" BaseCluster))
                 "c1" 2 None None None None)
              cluster_with_defaults) as [H _]; [reflexivity | reflexivity |].
  apply H; [reflexivity | discriminate | reflexivity | reflexivity].
Defined.

(** X17. [__ne__] between two clusters whose classes are one class or a
    class and a class derived from it, in either order: it is [False]
    when they have the same id and the same instance, in particular for
    a cluster and itself, and [True] when their ids differ. The store is
    left as it is. *)
Theorem X17___ne___related_classes (f : loc -> loc -> M pyeq)
    (self other : loc) (h : heap) (c o : Cluster) :
  h !! self = Some (OCluster c) -> h !! other = Some (OCluster o) ->
  issubclass (ob_type o) (ob_type c) = true
  \/ issubclass (ob_type c) (ob_type o) = true ->
  (cluster_id o = cluster_id c -> _instance o = _instance c ->
   __ne__ f self other h = (Ok false, h))
  /\ (cluster_id o <> cluster_id c -> __ne__ f self other h = (Ok true, h))
  /\ __ne__ f self self h = (Ok false, h).
Proof.
  intros Hc Ho Hrel. unfold __ne__. split; [|split].
  - intros Hid Hinst.
    erewrite bind_Ok by (apply richcompare_eq_clusters; eassumption).
    assert (H1 : same_identity h o c = true).
    { unfold same_identity.
      now rewrite Hid, String.eqb_refl, Hinst, instance_eqb_refl. }
    assert (H2 : same_identity h c o = true) by now rewrite same_identity_sym.
    rewrite H1, H2.
    destruct Hrel as [-> | ->]; [reflexivity |].
    now destruct (issubclass (ob_type o) (ob_type c)).
  - intros Hid.
    erewrite bind_Ok by (apply richcompare_eq_clusters; eassumption).
    assert (H1 : same_identity h o c = false).
    { unfold same_identity. apply String.eqb_neq in Hid. now rewrite Hid. }
    assert (H2 : same_identity h c o = false) by now rewrite same_identity_sym.
    rewrite H1, H2.
    destruct Hrel as [-> | ->]; [reflexivity |].
    now destruct (issubclass (ob_type o) (ob_type c)).
  - erewrite bind_Ok by (apply richcompare_eq_clusters; eassumption).
    rewrite issubclass_refl. unfold same_identity.
    now rewrite String.eqb_refl, instance_eqb_refl.
Qed.

Lemma X17___ne___related_classes_witness :
  __ne__ (fun _ _ => ret NotImplemented) 4 5
    (<[5 := OCluster cluster_with_slash]>
       (example_cluster_heap
          (mkCluster (Subclass "Cluster" BaseCluster) "c1" 2 None None None None)))
  = (Ok false,
     <[5 := OCluster cluster_with_slash]>
       (example_cluster_heap
          (mkCluster (Subclass "Cluster" BaseCluster) "c1" 2 None None None None))).
Proof.
  apply (X17___ne___related_classes (fun _ _ => ret NotImplemented) 4 5 _
           (mkCluster (Subclass "Cluster" BaseCluster) "c1" 2 None None None None)
           cluster_with_slash); try reflexivity.
  right. reflexivity.
Defined.

(** X18. [__ne__] is [True] between a cluster and any other object that
    [==] cannot compare with it: a cluster of a class that is neither
    its class, nor derived from it, nor a class it is derived from, even
    with the same id and instance; and an object of another kind whose
    own comparison declines. *)
Theorem X18___ne___unrelated (f : loc -> loc -> M pyeq) (self other : loc)
    (h : heap) (c : Cluster) :
  h !! self = Some (OCluster c) ->
  (forall o, h !! other = Some (OCluster o) ->
             issubclass (ob_type o) (ob_type c) = false ->
             issubclass (ob_type c) (ob_type o) = false ->
             __ne__ f self other h = (Ok true, h))
  /\ ((forall o, h !! other <> Some (OCluster o)) ->
      f other self h = (Ok NotImplemented, h) ->
      __ne__ f self other h = (Ok true, h)).
Proof.
  intros Hc. split.
  - intros o Ho H1 H2. unfold __ne__.
    erewrite bind_Ok by (apply richcompare_eq_clusters; eassumption).
    rewrite H1, H2.
    assert (Hne : self <> other).
    { intros ->. rewrite Hc in Ho. injection Ho as <-.
      now rewrite issubclass_refl in H1. }
    apply Nat.eqb_neq in Hne. unfold ret. now rewrite Hne.
  - intros Hno Hf. unfold __ne__, richcompare_eq.
    assert (Hcls : cluster_class other h = (Ok None, h)).
    { unfold cluster_class. destruct (h !! other) as [[| | o |]|] eqn:E;
        try reflexivity. now destruct (Hno o). }
    assert (Hne : self <> other).
    { intros ->. now destruct (Hno c). }
    assert (E : richcompare_eq f self other h = (Ok false, h)).
    { unfold richcompare_eq.
      erewrite bind_Ok by (apply read_cluster_Ok; eassumption).
      erewrite bind_Ok by exact Hcls. cbv beta iota zeta.
      erewrite bind_Ok.
      2:{ apply __eq___not_instance with (c := c); [assumption |].
          intros o Ho. now destruct (Hno o). }
      cbv beta iota.
      assert (E2 : reflected__eq__ f self other h = (Ok NotImplemented, h)).
      { unfold reflected__eq__. now erewrite bind_Ok by exact Hcls. }
      rewrite (bind_Ok (reflected__eq__ f self other) _ _ _ _ E2).
      apply Nat.eqb_neq in Hne. unfold ret. now rewrite Hne. }
    now erewrite bind_Ok by exact E.
Qed.

Lemma X18___ne___unrelated_witness :
  __ne__ (fun _ _ => ret NotImplemented) 4 5
    (<[5 := OCluster
         (mkCluster (Subclass "Replica" BaseCluster) "c1" 2 None None None None)]>
       (example_cluster_heap
          (mkCluster (Subclass "Cluster" BaseCluster) "c1" 2 None None None None)))
  = (Ok true,
     <[5 := OCluster
         (mkCluster (Subclass "Replica" BaseCluster) "c1" 2 None None None None)]>
       (example_cluster_heap
          (mkCluster (Subclass "Cluster" BaseCluster) "c1" 2 None None None None))).
Proof.
  destruct (X18___ne___unrelated (fun _ _ => ret NotImplemented) 4 5
              (<[5 := OCluster
                   (mkCluster (Subclass "Replica" BaseCluster) "c1" 2 None None
                      None None)]>
                 (example_cluster_heap
                    (mkCluster (Subclass "Cluster" BaseCluster) "c1" 2 None None
                       None None)))
              (mkCluster (Subclass "Cluster" BaseCluster) "c1" 2 None None None
                 None)) as [H _]; [reflexivity |].
  apply (H (mkCluster (Subclass "Replica" BaseCluster) "c1" 2 None None None None));
    reflexivity.
Defined.

(** ** The constructor, and [from_pb] when it raises *)

Lemma bind_Raise_inv {A B : Type} (m : M A) (k : A -> M B) (h h' : heap)
    (e : exn) :
  bind m k h = (Raise e, h') ->
  m h = (Raise e, h') \/ exists a h1, m h = (Ok a, h1) /\ k a h1 = (Raise e, h').
Proof.
  unfold bind. destruct (m h) as [[a|e0] h1]; intros E.
  - right. eauto.
  - left. now injection E as -> ->.
Qed.

Lemma same_heap_inv {A : Type} (m : M A) (h h' : heap) (r : result A) :
  snd (m h) = h -> m h = (r, h') -> h' = h.
Proof. intros Hs E. now rewrite E in Hs. Qed.

(** X19. The constructor makes a new object, at a location the store
    did not have, whose class is [cls] and whose seven attributes are
    the arguments as given, unchecked, and leaves the objects of the
    store as they were. The [name] of the new cluster is the canonical
    path of the client's project, the instance id and the cluster id as
    given, whether or not [from_pb] would accept such an id, and its
    [state] is the state given. *)
Theorem X19_constructor_unchecked (cls : pyclass) (cid : string)
    (instance : loc) (l : option string) (n t s : option Z) (h : heap)
    (inst : Instance) (client : Client) :
  h !! instance = Some (OInstance inst) ->
  h !! _client inst = Some (OClient client) ->
  (exists self,
     h !! self = None
     /\ __init__ cls cid instance l n t s h =
        (Ok self,
         <[self := OCluster
             {| ob_type := cls; cluster_id := cid; _instance := instance;
                location_id := l; serve_nodes := n;
                default_storage_type := t; _state := s |}]> h))
  /\ fst ((self <- __init__ cls cid instance l n t s ;;
           nm <- name self ;;
           st <- state self ;;
           ret (nm, st)) h)
     = Ok (cluster_path (project client) (instance_id inst) cid, s)
  /\ (forall l' o, h !! l' = Some o ->
                   snd (__init__ cls cid instance l n t s h) !! l' = Some o).
Proof.
  intros Hinst Hclient. pose proof (fresh_lookup h) as Hf. split; [|split].
  - exists (fresh (dom h)). split; [exact Hf | reflexivity].
  - unfold __init__. erewrite bind_Ok by reflexivity.
    erewrite bind_Ok.
    2:{ apply (name_Ok _ _ (mkCluster cls cid instance l n t s) inst client).
        - apply lookup_insert_eq.
        - cbn [_instance]. rewrite lookup_insert_ne by congruence. exact Hinst.
        - rewrite lookup_insert_ne by congruence. exact Hclient. }
    unfold state.
    erewrite bind_Ok.
    2:{ erewrite bind_Ok by (apply read_cluster_Ok, lookup_insert_eq).
        reflexivity. }
    reflexivity.
  - intros l' o Hl'. simpl. rewrite lookup_insert_ne by congruence. exact Hl'.
Qed.

Lemma X19_constructor_unchecked_witness :
  (exists self,
     example_heap example_name !! self = None
     /\ __init__ BaseCluster "Not An Id" 2 (Some "a/b") (Some (-1)%Z) None
          (Some 7%Z) (example_heap example_name) =
        (Ok self,
         <[self := OCluster
             (mkCluster BaseCluster "Not An Id" 2 (Some "a/b") (Some (-1)%Z)
                None (Some 7%Z))]> (example_heap example_name)))
  /\ fst ((self <- __init__ BaseCluster "Not An Id" 2 (Some "a/b")
                     (Some (-1)%Z) None (Some 7%Z) ;;
           nm <- name self ;;
           st <- state self ;;
           ret (nm, st)) (example_heap example_name))
     = Ok ("projects/p1/instances/i1/clusters/Not An Id", Some 7%Z).
Proof.
  destruct (X19_constructor_unchecked BaseCluster "Not An Id" 2 (Some "a/b")
              (Some (-1)%Z) None (Some 7%Z) (example_heap example_name)
              (mkInstance "i1" 1) (mkClient "p1")) as (H1 & H2 & _);
    [reflexivity | reflexivity |].
  split; [exact H1 | exact H2].
Defined.

(** X20. [from_pb] builds nothing when it raises: on every store and for
    every pair of references, if the call raises then the store after it
    is the store before. *)
Theorem X20_from_pb_raise_keeps_store (cls : pyclass)
    (cluster_pb instance : loc) (h h' : heap) (e : exn) :
  from_pb cls cluster_pb instance h = (Raise e, h') -> h' = h.
Proof.
  unfold from_pb. intros E.
  apply bind_Raise_inv in E as [E | (pb & h1 & [-> Hpb]%read_pb_inv & E)];
    [exact (same_heap_inv _ _ _ _ (read_pb_heap _ _) E) |].
  destruct (re_match _ _) as [m|]; [|now injection E].
  apply bind_Raise_inv in E as [E | (gi & h1 & E1 & E)];
    [exact (same_heap_inv _ _ _ _ (group__heap _ _ _) E) |].
  apply (same_heap_inv _ _ _ _ (group__heap _ _ _)) in E1 as ->.
  apply bind_Raise_inv in E as [E | (inst & h1 & [-> _]%read_instance_inv & E)];
    [exact (same_heap_inv _ _ _ _ (read_instance_heap _ _) E) |].
  destruct (negb _); [now injection E |].
  apply bind_Raise_inv in E as [E | (gp & h1 & E1 & E)];
    [exact (same_heap_inv _ _ _ _ (group__heap _ _ _) E) |].
  apply (same_heap_inv _ _ _ _ (group__heap _ _ _)) in E1 as ->.
  apply bind_Raise_inv in E as [E | (client & h1 & [-> _]%read_client_inv & E)];
    [exact (same_heap_inv _ _ _ _ (read_client_heap _ _) E) |].
  destruct (negb _); [now injection E |].
  apply bind_Raise_inv in E as [E | (cid & h1 & E1 & E)];
    [exact (same_heap_inv _ _ _ _ (group__heap _ _ _) E) |].
  apply (same_heap_inv _ _ _ _ (group__heap _ _ _)) in E1 as ->.
  exfalso.
  apply bind_Raise_inv in E as [E | (result & h1 & E1 & E)]; [discriminate E |].
  injection E1 as <- <-.
  assert (Hne : fresh (dom h) <> cluster_pb).
  { intros Heq. pose proof (fresh_lookup h) as Hf. rewrite Heq in Hf. congruence. }
  erewrite bind_Ok in E; [discriminate E |].
  apply _update_from_pb_Ok;
    [apply lookup_insert_eq | rewrite lookup_insert_ne by assumption; exact Hpb].
Qed.

Lemma X20_from_pb_raise_keeps_store_witness :
  snd (from_pb BaseCluster 3 2
         (example_heap "projects/p1/instances/i1/clusters/C1"))
  = example_heap "projects/p1/instances/i1/clusters/C1".
Proof.
  apply (X20_from_pb_raise_keeps_store BaseCluster 3 2
           (example_heap "projects/p1/instances/i1/clusters/C1") _
           (ValueError [msg_format; "projects/p1/instances/i1/clusters/C1"])).
  reflexivity.
Defined.

(** X21. [_to_pb] raises [ValueError] and writes nothing when the node
    count, or the storage type, is set to an integer outside the range
    of 32-bit signed integers. *)
Theorem X21__to_pb_out_of_range (self : loc) (h : heap) (c : Cluster)
    (inst : Instance) (client : Client) :
  h !! self = Some (OCluster c) -> h !! _instance c = Some (OInstance inst) ->
  h !! _client inst = Some (OClient client) ->
  sendable (serve_nodes c) = false
  \/ sendable (default_storage_type c) = false ->
  exists args, _to_pb self h = (Raise (ValueError args), h).
Proof.
  intros Hc Hinst Hclient Hout.
  destruct (_to_pb_Raise self h c inst client Hc Hinst Hclient) as [H1 H2].
  destruct (sendable (serve_nodes c)) eqn:Hn.
  - destruct Hout as [Hout|Hout]; [discriminate |]. eauto.
  - eauto.
Qed.

Lemma X21__to_pb_out_of_range_witness :
  exists args,
    _to_pb 4 (example_cluster_heap cluster_out_of_range)
    = (Raise (ValueError args), example_cluster_heap cluster_out_of_range).
Proof.
  apply (X21__to_pb_out_of_range 4 _ cluster_out_of_range (mkInstance "i1" 1)
           (mkClient "p1")); try reflexivity.
  left. reflexivity.
Defined.
